(** * docker-java-executor: the job execution engine of [server.js]

    A shallow embedding of [server.js]: the jobs table, the output stream
    handler, the statistics handler, [createTarArchive],
    [executeJavaInDocker] and the [/api/submit] route, then the two routes
    that read jobs back, [initDatabase] and [cleanupOrphanedContainers],
    followed by the properties of the engine.

    - JavaScript strings are sequences of UTF-16 code units ([jsstring]).
    - Buffers are lists of bytes; [Buffer.toString()] is the UTF-8 decoder.
    - JavaScript numbers are IEEE 754 binary64 values ([float]).
    - The SQLite jobs table is a finite map from job id to row.
    - Calls to SQLite and Docker are answered by an environment [env] and
      logged, with the clock, in the trace of the [world]. *)

From Stdlib Require Import ZArith NArith Floats Ascii String.
From Stdlib.Init Require Import Byte.
From stdpp Require Import base option list gmap strings sorting.

Local Open Scope N_scope.

(** ** Text and bytes *)

(** A JavaScript string: its UTF-16 code units. *)
Abbreviation jsstring := (list N).

(** A string literal of the source (ASCII). *)
Definition lit (s : string) : jsstring :=
  map N_of_ascii (list_ascii_of_string s).

(** [!s] for a string: only the empty string is falsy. *)
Definition truthy (s : jsstring) : bool :=
  match s with [] => false | _ :: _ => true end.

(** [s.substring(from, to)]: a negative index counts as 0, and the two
    indices are swapped when the first is the larger one. *)
Definition substring (s : jsstring) (from to : Z) : jsstring :=
  let a := Z.max 0 from in
  let b := Z.max 0 to in
  take (Z.to_nat (Z.max a b - Z.min a b)) (drop (Z.to_nat (Z.min a b)) s).

(** [parts.join(sep)]. *)
Fixpoint join (sep : jsstring) (parts : list jsstring) : jsstring :=
  match parts with
  | [] => []
  | [p] => p
  | p :: rest => p ++ sep ++ join sep rest
  end.


(** *** UTF-8 decoding, as [Buffer.prototype.toString] does it

    Ill-formed input is replaced by U+FFFD, one replacement per maximal
    ill-formed subpart; no byte order mark is removed. *)

Module Utf8.

Record state := State { rem : nat; cp : N; lo : N; hi : N }.

Definition init : state := State 0 0 0x80 0xBF.

Definition replacement : N := 0xFFFD.

Definition between (a b x : N) : bool := (a <=? x) && (x <=? b).

(** A byte read when no sequence is open. *)
Definition lead (b : N) : state * list N :=
  if b <=? 0x7F then (init, [b])
  else if between 0xC2 0xDF b then (State 1 (N.land b 0x1F) 0x80 0xBF, [])
  else if between 0xE0 0xEF b then
    (State 2 (N.land b 0xF)
           (if b =? 0xE0 then 0xA0 else 0x80)
           (if b =? 0xED then 0x9F else 0xBF), [])
  else if between 0xF0 0xF4 b then
    (State 3 (N.land b 0x7)
           (if b =? 0xF0 then 0x90 else 0x80)
           (if b =? 0xF4 then 0x8F else 0xBF), [])
  else (init, [replacement]).

Definition step (st : state) (b : N) : state * list N :=
  match rem st with
  | O => lead b
  | S r =>
      if between (lo st) (hi st) b then
        let c := N.lor (N.shiftl (cp st) 6) (N.land b 0x3F) in
        match r with
        | O => (init, [c])
        | S _ => (State r c 0x80 0xBF, [])
        end
      else
        let '(st', out) := lead b in (st', replacement :: out)
  end.

(** The code points of a byte sequence. *)
Fixpoint decode_from (st : state) (bs : list byte) : list N :=
  match bs with
  | [] => match rem st with O => [] | S _ => [replacement] end
  | b :: bs' =>
      let '(st', out) := step st (Byte.to_N b) in
      out ++ decode_from st' bs'
  end.

(** A code point as UTF-16 code units. *)
Definition units (c : N) : list N :=
  if c <? 0x10000 then [c]
  else let c' := c - 0x10000 in
       [0xD800 + N.shiftr c' 10; 0xDC00 + N.land c' 0x3FF].



End Utf8.

(** [buf.toString()] *)
Definition toString (buf : list byte) : jsstring :=
  flat_map Utf8.units (Utf8.decode_from Utf8.init buf).

(** ** The output stream handler: [stream.on('data', ...)] *)

Record buffers := Buffers { stdout : jsstring; stderr : jsstring }.

Definition no_output : buffers := Buffers [] [].

(** One [data] event.  [header[0]] is [undefined] for an empty chunk, which
    is neither [1] nor [2]. *)
Definition onData (chunk : list byte) (b : buffers) : buffers :=
  let header := take 8 chunk in
  let type := Byte.to_N <$> head header in
  let payload := drop 8 chunk in
  match type with
  | Some 1 => Buffers (stdout b ++ toString payload) (stderr b)
  | Some 2 => Buffers (stdout b) (stderr b ++ toString payload)
  | _ => b
  end.

(** The buffers after a sequence of [data] events. *)
Definition demux (chunks : list (list byte)) (b : buffers) : buffers :=
  foldl (fun acc chunk => onData chunk acc) b chunks.

(** ** The statistics handler: [statsStream.on('data', ...)] *)

Local Open Scope float_scope.

(** A statistics frame after [JSON.parse], reduced to the leaves the handler
    reads.  A leaf that is absent reads as [undefined], which the arithmetic
    turns into [NaN]: it is [nan] here.  [memory_stats] is [None] when
    [stats.memory_stats] itself is absent, where reading [.usage] throws. *)
Record stats_frame := StatsFrame {
  cpu_total_usage : float;      (* stats.cpu_stats.cpu_usage.total_usage *)
  precpu_total_usage : float;   (* stats.precpu_stats.cpu_usage.total_usage *)
  system_cpu_usage : float;     (* stats.cpu_stats.system_cpu_usage *)
  presystem_cpu_usage : float;  (* stats.precpu_stats.system_cpu_usage *)
  online_cpus : float;          (* stats.cpu_stats.online_cpus *)
  memory_stats : option float   (* stats.memory_stats.usage *)
}.

Record peaks := Peaks { maxCpuPercent : float; maxMemoryMb : float }.

(** [a > b] on numbers. *)
Definition gt (a b : float) : bool := PrimFloat.ltb b a.

Definition cpuDelta (stats : stats_frame) : float :=
  cpu_total_usage stats - precpu_total_usage stats.

Definition systemDelta (stats : stats_frame) : float :=
  system_cpu_usage stats - presystem_cpu_usage stats.

Definition cpuPercent (stats : stats_frame) : float :=
  (cpuDelta stats / systemDelta stats) * online_cpus stats * 100.

(** How the body of the [try] block ends. *)
Inductive completion (A : Type) :=
| Normal (a : A)
| Thrown (a : A).
Arguments Normal {A} a.
Arguments Thrown {A} a.

(** The body of the [try] block.  [data] is [None] when [JSON.parse] throws
    or when one of the objects on the way to a CPU leaf is absent: nothing
    has been assigned by then. *)
Definition statsBody (data : option stats_frame) (p : peaks) : completion peaks :=
  match data with
  | None => Thrown p
  | Some stats =>
      let p1 :=
        if gt (cpuPercent stats) (maxCpuPercent p)
        then Peaks (cpuPercent stats) (maxMemoryMb p) else p in
      match memory_stats stats with
      | None => Thrown p1
      | Some usage =>
          let memoryMb := usage / (1024 * 1024) in
          Normal (if gt memoryMb (maxMemoryMb p1)
                  then Peaks (maxCpuPercent p1) memoryMb else p1)
      end
  end.

(** The handler: [catch (e) { /* Ignore parse errors */ }]. *)
Definition statsOnData (data : option stats_frame) (p : peaks) : peaks :=
  match statsBody data p with
  | Normal p' => p'
  | Thrown p' => p'
  end.

Local Close Scope float_scope.
Local Open Scope Z_scope.

(** ** The jobs table *)

Inductive job_status := not_started | running | done.

(** An element of [inputFiles].  A field that is absent is falsy like the
    empty string, and is the empty string here. *)
Record file := File { name : jsstring; content : jsstring }.

Module Job.

(** A row of [jobs]; the primary key [id] is the key of the table.
    Columns without a default are [NULL] ([None]) until written;
    timestamps are readings of the clock. *)
Record t := Make {
  api_key : string;
  status : job_status;
  java_code : jsstring;
  args : list jsstring;
  input_files : list file;
  stdout : option jsstring;
  stderr : option jsstring;
  crashed : Z;
  timed_out : Z;
  memory_usage_mb : option float;
  cpu_percent_max : option float;
  execution_time_ms : option Z;
  created_at : Z;
  started_at : option Z;
  completed_at : option Z;
  container_id : option string
}.

(** [INSERT INTO jobs (id, api_key, java_code, args, input_files, status)
    VALUES (?, ?, ?, ?, ?, 'not_started')] *)
Definition inserted (key : string) (code : jsstring) (args : list jsstring)
    (files : list file) (now : Z) : t :=
  Make key not_started code args files None None 0 0 None None None now None None None.

(** [UPDATE jobs SET status = 'running', started_at = CURRENT_TIMESTAMP] *)
Definition set_running (now : Z) (r : t) : t :=
  Make (api_key r) running (java_code r) (args r) (input_files r)
       (stdout r) (stderr r) (crashed r) (timed_out r)
       (memory_usage_mb r) (cpu_percent_max r) (execution_time_ms r)
       (created_at r) (Some now) (completed_at r) (container_id r).

(** [UPDATE jobs SET container_id = ?] *)
Definition set_container (cid : string) (r : t) : t :=
  Make (api_key r) (status r) (java_code r) (args r) (input_files r)
       (stdout r) (stderr r) (crashed r) (timed_out r)
       (memory_usage_mb r) (cpu_percent_max r) (execution_time_ms r)
       (created_at r) (started_at r) (completed_at r) (Some cid).

(** [UPDATE jobs SET status = 'done', stdout = ?, stderr = ?, crashed = ?,
    timed_out = ?, memory_usage_mb = ?, cpu_percent_max = ?,
    execution_time_ms = ?, completed_at = CURRENT_TIMESTAMP] *)
Definition set_done (out err : jsstring) (crashed timed_out : Z)
    (mem cpu : float) (ms : Z) (now : Z) (r : t) : t :=
  Make (api_key r) done (java_code r) (args r) (input_files r)
       (Some out) (Some err) crashed timed_out
       (Some mem) (Some cpu) (Some ms)
       (created_at r) (started_at r) (Some now) (container_id r).

(** [UPDATE jobs SET status = 'done', crashed = 1, stderr = ?,
    completed_at = CURRENT_TIMESTAMP] *)
Definition set_failed (message : jsstring) (now : Z) (r : t) : t :=
  Make (api_key r) done (java_code r) (args r) (input_files r)
       (stdout r) (Some message) 1 (timed_out r)
       (memory_usage_mb r) (cpu_percent_max r) (execution_time_ms r)
       (created_at r) (started_at r) (Some now) (container_id r).

End Job.

(** [row'] differs from [row] at most in [status], [started_at],
    [completed_at] and [container_id]: what was submitted and the result
    columns are the same. *)
Definition untouched (row row' : Job.t) : Prop :=
  Job.api_key row' = Job.api_key row /\ Job.java_code row' = Job.java_code row /\
  Job.args row' = Job.args row /\ Job.input_files row' = Job.input_files row /\
  Job.stdout row' = Job.stdout row /\ Job.stderr row' = Job.stderr row /\
  Job.crashed row' = Job.crashed row /\ Job.timed_out row' = Job.timed_out row /\
  Job.memory_usage_mb row' = Job.memory_usage_mb row /\
  Job.cpu_percent_max row' = Job.cpu_percent_max row /\
  Job.execution_time_ms row' = Job.execution_time_ms row /\
  Job.created_at row' = Job.created_at row.

(** The [result] block of [GET /api/job/:jobId]. *)
Record result_view := ResultView {
  view_stdout : jsstring;
  view_stderr : jsstring;
  view_crashed : bool;
  view_timedOut : bool;
  view_memoryUsageMB : option float;
  view_cpuPercentMax : option float;
  view_executionTimeMs : option Z
}.

Definition result_of (job : Job.t) : option result_view :=
  match Job.status job with
  | done =>
      Some (ResultView (default [] (Job.stdout job)) (default [] (Job.stderr job))
                       (Job.crashed job =? 1) (Job.timed_out job =? 1)
                       (Job.memory_usage_mb job) (Job.cpu_percent_max job)
                       (Job.execution_time_ms job))
  | _ => None
  end.

(** ** The archive: [createTarArchive] *)

(** The tar archive, as the entries packed into it, in order. *)
Abbreviation archive := (list (jsstring * jsstring)).

Definition createTarArchive (javaCode : jsstring) (inputFiles : list file) : archive :=
  (lit "Main.java", javaCode)
  :: flat_map (fun file =>
                 if truthy (name file) && truthy (content file)
                 then [(name file, content file)] else [])
              inputFiles.

(** ** SQLite and Docker *)

(** The calls the server awaits. *)
Inductive op :=
| SelectKey (key : string)
| InsertJob (id key : string) (code : jsstring) (args : list jsstring) (files : list file)
| SelectJob (id : string)
| UpdateRunning (id : string)
| UpdateContainer (id cid : string)
| UpdateDone (id : string) (out err : jsstring) (crashed timed_out : Z)
             (mem cpu : float) (ms : Z)
| UpdateFailed (id : string) (message : jsstring)
| CreateContainer (cmd : list jsstring) (jobId : string)
| PutArchive (cid : string) (tarBuffer : archive) (path : jsstring)
| Attach (cid : string)
| Start (cid : string)
| Stats (cid : string)
| Wait (cid : string)
| Kill (cid : string)
| Remove (cid : string) (force : bool).

(** A completed call: when it was issued, when it settled, and whether it
    was fulfilled. *)
Record call := Call { c_op : op; c_from : Z; c_to : Z; c_ok : bool }.

Record world := World {
  jobs : gmap string Job.t;
  api_keys : gset string;
  clock : Z;            (* Date.now() *)
  trace : list call     (* completed calls, oldest first *)
}.

(** What happens while [container.wait()] is pending. *)
Inductive wait_event :=
| StreamData (chunk : list byte)
| StatsData (data : option stats_frame)
| DeadlineFired.

(** How SQLite and Docker answer in one run. *)
Record env := Env {
  fails : op -> option jsstring;   (* the error a call is rejected with *)
  latency : op -> N;               (* how long a call takes, in ms *)
  uuid : string;                   (* uuidv4() *)
  created : string;                (* container.id *)
  StatusCode : Z;                  (* result.StatusCode *)
  during_wait : list wait_event
}.

(** What a statement does to the table when it is run at time [now].
    An [UPDATE ... WHERE id = ?] changes the row with that id, if any. *)
Definition sql_effect (o : op) (now : Z) (tbl : gmap string Job.t) : gmap string Job.t :=
  match o with
  | InsertJob id key code args files => <[id := Job.inserted key code args files now]> tbl
  | UpdateRunning id => alter (Job.set_running now) id tbl
  | UpdateContainer id cid => alter (Job.set_container cid) id tbl
  | UpdateDone id out err crashed timed_out mem cpu ms =>
      alter (Job.set_done out err crashed timed_out mem cpu ms now) id tbl
  | UpdateFailed id message => alter (Job.set_failed message now) id tbl
  | _ => tbl
  end.

(** [id TEXT PRIMARY KEY]: a second row with the same id is refused. *)
Definition constraint (o : op) (tbl : gmap string Job.t) : option jsstring :=
  match o with
  | InsertJob id _ _ _ _ =>
      match tbl !! id with
      | Some _ => Some (lit "SQLITE_CONSTRAINT: UNIQUE constraint failed: jobs.id")
      | None => None
      end
  | _ => None
  end.

(** *** What the handlers make of the events of a run *)

(** The chunks, the statistics frames and the deadline among the events. *)
Definition chunks_of (evs : list wait_event) : list (list byte) :=
  flat_map (fun ev => match ev with StreamData chunk => [chunk] | _ => [] end) evs.

Definition frames_of (evs : list wait_event) : list (option stats_frame) :=
  flat_map (fun ev => match ev with StatsData data => [data] | _ => [] end) evs.

Definition fired (evs : list wait_event) : bool :=
  existsb (fun ev => match ev with DeadlineFired => true | _ => false end) evs.

(** The peaks after a sequence of statistics frames. *)
Definition sample (frames : list (option stats_frame)) (p : peaks) : peaks :=
  foldl (fun acc data => statsOnData data acc) p frames.

Section Server.

Variable e : env.

(** A call issued at [from] settles: the clock advances, the call is
    logged, and a fulfilled statement takes effect. *)
Definition settle (o : op) (from : Z) (w : world) : option jsstring * world :=
  let now := clock w + Z.of_N (latency e o) in
  match from_option Some (fails e o) (constraint o (jobs w)) with
  | Some message =>
      (Some message,
       World (jobs w) (api_keys w) now (trace w ++ [Call o from now false]))
  | None =>
      (None,
       World (sql_effect o now (jobs w)) (api_keys w) now
             (trace w ++ [Call o from now true]))
  end.

Definition perform (o : op) (w : world) : option jsstring * world :=
  settle o (clock w) w.

(** *** The variables [executeJavaInDocker] closes over *)

Record locals := Locals {
  container : option string;   (* null until createContainer is fulfilled *)
  timeout : bool;              (* setTimeout has returned a timer *)
  peak : peaks;                (* maxCpuPercent, maxMemoryMb *)
  timedOut : bool;
  startTime : Z;
  output : buffers             (* stdout, stderr *)
}.

(** An asynchronous computation over the locals and the world: it is
    fulfilled with a value or rejected with an error message. *)
Inductive result (A : Type) :=
| Fulfilled (a : A) (l : locals) (w : world)
| Rejected (message : jsstring) (l : locals) (w : world).
Arguments Fulfilled {A} a l w.
Arguments Rejected {A} message l w.

Definition M (A : Type) : Type := locals -> world -> result A.

#[local] Instance M_ret : MRet M := fun A a l w => Fulfilled a l w.

#[local] Instance M_bind : MBind M := fun A B f m l w =>
  match m l w with
  | Fulfilled a l' w' => f a l' w'
  | Rejected message l' w' => Rejected message l' w'
  end.

Definition throw {A} (message : jsstring) : M A :=
  fun l w => Rejected message l w.

(** [await] of a call. *)
Definition await (o : op) : M unit := fun l w =>
  match perform o w with
  | (Some message, w') => Rejected message l w'
  | (None, w') => Fulfilled tt l w'
  end.

(** [try { await ... } catch (e) { }] *)
Definition attempt (o : op) : M unit := fun l w =>
  Fulfilled tt l (snd (perform o w)).

Definition assign (f : locals -> locals) : M unit := fun l w => Fulfilled tt (f l) w.

Definition read {A} (f : locals -> world -> A) : M A := fun l w => Fulfilled (f l w) l w.

(** [db.get('SELECT * FROM jobs WHERE id = ?', [jobId], ...)] *)
Definition selectJob (jobId : string) : M (option Job.t) :=
  await (SelectJob jobId) ;; read (fun _ w => jobs w !! jobId).

(** One event while [container.wait()] is pending: a chunk of output, a
    statistics frame, or the deadline, whose callback sets [timedOut] and
    kills the container, ignoring a failure to do so. *)
Definition deliver (cid : string) (lw : locals * world) (ev : wait_event) : locals * world :=
  let '(l, w) := lw in
  match ev with
  | StreamData chunk =>
      (Locals (container l) (timeout l) (peak l) (timedOut l) (startTime l)
              (onData chunk (output l)), w)
  | StatsData data =>
      (Locals (container l) (timeout l) (statsOnData data (peak l)) (timedOut l)
              (startTime l) (output l), w)
  | DeadlineFired =>
      (Locals (container l) (timeout l) (peak l) true (startTime l) (output l),
       snd (perform (Kill cid) w))
  end.

(** [await container.wait()]: the handlers run while it is pending.  The
    listeners and the timer are installed just before this [await] and what
    they gathered is read right after it, so the events of a run are
    delivered here. *)
Definition wait (cid : string) : M Z := fun l w =>
  let '(l', w') := foldl (deliver cid) (l, w) (during_wait e) in
  match settle (Wait cid) (clock w) w' with
  | (Some message, w'') => Rejected message l' w''
  | (None, w'') => Fulfilled (StatusCode e) l' w''
  end.

(** The delay of the timer.  Whether the timer fires before
    [container.wait()] settles is for the environment to say
    ([DeadlineFired]). *)
Definition CONTAINER_TIMEOUT_MS : Z := 10000.

(** The command of the container. *)
Definition Cmd (args : list jsstring) : list jsstring :=
  [lit "sh"; lit "-c";
   lit "cd /app && javac Main.java && java Main " ++ join (lit " ") args].

(** The body of the [try] block. *)
Definition tryBlock (jobId : string) : M unit :=
  job ← selectJob jobId;
  match job with
  | None => throw (lit "Job not found")
  | Some job =>
      await (UpdateRunning jobId) ;;
      let inputFiles := Job.input_files job in
      let args := Job.args job in
      let tarBuffer := createTarArchive (Job.java_code job) inputFiles in
      await (CreateContainer (Cmd args) jobId) ;;
      let cid := created e in
      assign (fun l => Locals (Some cid) (timeout l) (peak l) (timedOut l)
                              (startTime l) (output l)) ;;
      await (UpdateContainer jobId cid) ;;
      await (PutArchive cid tarBuffer (lit "/app")) ;;
      await (Attach cid) ;;
      await (Start cid) ;;
      await (Stats cid) ;;
      assign (fun l => Locals (container l) true (peak l) (timedOut l)
                              (startTime l) (output l)) ;;
      code ← wait cid;
      executionTime ← read (fun l w => clock w - startTime l);
      l ← read (fun l _ => l);
      let crashed := negb (code =? 0) && negb (timedOut l) in
      await (UpdateDone jobId
               (substring (stdout (output l)) 0 10000)
               (substring (stderr (output l)) 0 10000)
               (if crashed then 1 else 0)
               (if timedOut l then 1 else 0)
               (maxMemoryMb (peak l))
               (maxCpuPercent (peak l))
               executionTime) ;;
      attempt (Remove cid false)
  end.

(** What the promise returned by [executeJavaInDocker] does: it resolves
    with [{ success: true }] or [{ success: false, error }], or it stays
    pending when the statement of the [catch] block is itself rejected. *)
Inductive outcome :=
| Success
| Failure (error : jsstring)
| Pending (error : jsstring).

Definition executeJavaInDocker (jobId : string) (w : world) : outcome * world :=
  let l0 := Locals None false (Peaks 0 0) false (clock w) no_output in
  match tryBlock jobId l0 w with
  | Fulfilled _ _ w' => (Success, w')
  | Rejected error l w' =>
      match perform (UpdateFailed jobId error) w' with
      | (Some message, w'') => (Pending message, w'')
      | (None, w'') =>
          (Failure error,
           match container l with
           | Some cid => snd (perform (Remove cid true) w'')
           | None => w''
           end)
      end
  end.

(** ** [POST /api/submit] *)

Record request := Request {
  x_api_key : option string;   (* req.headers['x-api-key'] *)
  javaCode : jsstring;         (* empty when absent *)
  args : list jsstring;
  inputFiles : list file
}.

Inductive response :=
| Error (status : nat) (error : string)
| Submitted (jobId : string).

(** The middleware: the key to continue with, or the response. *)
Definition authenticateApiKey (req : request) (w : world) : (response + string) * world :=
  match x_api_key req with
  | None => (inl (Error 401 "API key required"), w)
  | Some apiKey =>
      if String.eqb apiKey EmptyString then (inl (Error 401 "API key required"), w)
      else
        match perform (SelectKey apiKey) w with
        | (Some _, w') => (inl (Error 500 "Database error"), w')
        | (None, w') =>
            if decide (apiKey ∈ api_keys w')
            then (inr apiKey, w')
            else (inl (Error 401 "Invalid API key"), w')
        end
  end.

(** The route, with the job it launches run to its end. *)
Definition submit (req : request) (w : world) : response * world :=
  match authenticateApiKey req w with
  | (inl res, w') => (res, w')
  | (inr apiKey, w') =>
      if negb (truthy (javaCode req))
      then (Error 400 "Java code is required", w')
      else
        let jobId := uuid e in
        match perform (InsertJob jobId apiKey (javaCode req) (args req) (inputFiles req)) w' with
        | (Some _, w'') => (Error 500 "Failed to create job", w'')
        | (None, w'') => (Submitted jobId, snd (executeJavaInDocker jobId w''))
        end
  end.

(** ** What a run has gathered when [container.wait()] is fulfilled *)

Definition collected : buffers := demux (chunks_of (during_wait e)) no_output.

Definition sampled : peaks := sample (frames_of (during_wait e)) (Peaks 0 0).

Definition crashed_flag : Z :=
  if negb (StatusCode e =? 0) && negb (fired (during_wait e)) then 1 else 0.

Definition timed_out_flag : Z := if fired (during_wait e) then 1 else 0.

End Server.

(** ** Reading a run back from the environment and the trace *)

(** The two statements that write [status = 'done']. *)
Definition is_finalize (o : op) : bool :=
  match o with
  | UpdateDone _ _ _ _ _ _ _ _ | UpdateFailed _ _ => true
  | _ => false
  end.

Definition finalized (c : call) : bool := c_ok c && is_finalize (c_op c).

(** The three calls that open the observers and start the container. *)
Definition is_observer (o : op) : bool :=
  match o with
  | Attach _ | Start _ | Stats _ => true
  | _ => false
  end.

Definition observers (calls : list call) : list op :=
  List.filter is_observer (map c_op calls).

Definition is_wait (o : op) : bool :=
  match o with Wait _ => true | _ => false end.

Definition is_mark_running (o : op) : bool :=
  match o with UpdateRunning _ => true | _ => false end.


(** The calls of a log whose operation satisfies [p]. *)
Definition calls_of (p : op -> bool) (calls : list call) : list call :=
  List.filter (fun c => p (c_op c)) calls.

(** The table after a logged call, and after a log. *)
Definition apply_call (c : call) (tbl : gmap string Job.t) : gmap string Job.t :=
  if c_ok c then sql_effect (c_op c) (c_to c) tbl else tbl.

Definition replay (calls : list call) (tbl : gmap string Job.t) : gmap string Job.t :=
  foldl (fun t c => apply_call c t) tbl calls.

Definition rank (s : option job_status) : nat :=
  match s with
  | None | Some not_started => 0
  | Some running => 1
  | Some done => 2
  end.

(** No call of the log moves the status of job [id] backwards, starting
    from the table [tbl]. *)
Fixpoint monotone (id : string) (calls : list call) (tbl : gmap string Job.t) : Prop :=
  match calls with
  | [] => True
  | c :: rest =>
      (rank (Job.status <$> tbl !! id) <= rank (Job.status <$> apply_call c tbl !! id))%nat
      /\ monotone id rest (apply_call c tbl)
  end.

(** ** The framed stream of the container runtime

    A frame on the wire: the tag, three reserved bytes, the length of the
    payload as a big-endian 32-bit number, and the payload. *)

Record frame := Frame { tag : byte; payload : list byte }.

Definition byte_of (n : N) : byte := default x00 (Byte.of_N (n mod 256)%N).

Definition be32 (n : N) : list byte :=
  [byte_of (N.shiftr n 24); byte_of (N.shiftr n 16); byte_of (N.shiftr n 8); byte_of n].

Definition encode_frame (f : frame) : list byte :=
  tag f :: x00 :: x00 :: x00 :: be32 (N.of_nat (length (payload f))) ++ payload f.





(** ** File names that leave the working directory *)




(** ** Scenarios *)

Module Scenario.

Definition quiet : op -> option jsstring := fun _ => None.

Definition ten : op -> N := fun _ => 10%N.

(** [public class Main { ... }] stands for any source text. *)
Definition source : jsstring := lit "public class Main { }".

Definition hi : list byte := [x68; x69; x0a].

Definition frame1 : stats_frame :=
  StatsFrame 3e9 1e9 10e9 2e9 2 (Some 104857600%float).

(** A table with one job as [/api/submit] inserts it, and one API key. *)
Definition fresh : world :=
  World {[ "job-1" := Job.inserted "test-api-key-123" source [] [] 990 ]}
        {[ "test-api-key-123" ]} 1000 [].

(** Nothing fails; the program prints [hi] and exits with 0. *)
Definition hello : env :=
  Env quiet ten "job-1" "c0ffee" 0
      [StreamData (encode_frame (Frame x01 hi)); StatsData (Some frame1)].


(** The deadline fires and the container still exits with 0. *)
Definition late_exit : env :=
  Env quiet ten "job-1" "c0ffee" 0 [DeadlineFired].

(** [docker.createContainer] is rejected. *)
Definition no_image (message : jsstring) : env :=
  Env (fun o => match o with CreateContainer _ _ => Some message | _ => None end)
      ten "job-1" "c0ffee" 0 [].

(** [docker.createContainer] is rejected, and then SQLite as well. *)
Definition no_image_locked : env :=
  Env (fun o => match o with
                | CreateContainer _ _ => Some (lit "no such image")
                | UpdateFailed _ _ => Some (lit "SQLITE_BUSY: database is locked")
                | _ => None
                end)
      ten "job-1" "c0ffee" 0 [].


(** A submission with an input file named [../etc/passwd]. *)
Definition upward : request :=
  Request (Some "test-api-key-123") source []
          [File (lit "../etc/passwd") (lit "root:x:0:0")].





End Scenario.

(** * The other routes, the start of the server and the sweep *)

(** ** What a route answers: a response of the middleware or of the route
    itself, or a JSON body *)

Inductive reply (A : Type) :=
| Answered (res : response)
| Json (body : A).
Arguments Answered {A} res.
Arguments Json {A} body.

(** ** [GET /api/job/:jobId] *)

Record job_view := JobView {
  view_jobId : string;
  view_status : job_status;
  view_createdAt : Z;
  view_startedAt : option Z;
  view_completedAt : option Z;
  view_result : option result_view   (* present when the status is done *)
}.

(** The callback of [SELECT * FROM jobs WHERE id = ? AND api_key = ?];
    [err] is the error SQLite hands to it, if any. *)
Definition jobHandler (err : option jsstring) (apiKey jobId : string) (w : world)
  : reply job_view :=
  match err with
  | Some _ => Answered (Error 500 "Database error")
  | None =>
      match jobs w !! jobId with
      | Some job =>
          if decide (Job.api_key job = apiKey)
          then Json (JobView jobId (Job.status job) (Job.created_at job)
                             (Job.started_at job) (Job.completed_at job)
                             (result_of job))
          else Answered (Error 404 "Job not found")
      | None => Answered (Error 404 "Job not found")
      end
  end.

(** The request as the middleware reads it: only the header counts. *)
Definition with_key (key : option string) : request := Request key [] [] [].

(** The route behind its middleware. *)
Definition getJob (e : env) (err : option jsstring) (key : option string)
    (jobId : string) (w : world) : reply job_view * world :=
  match authenticateApiKey e (with_key key) w with
  | (inl res, w') => (Answered res, w')
  | (inr apiKey, w') => (jobHandler err apiKey jobId w', w')
  end.

(** ** [GET /api/jobs] *)

(** A row of the listing: [id, status, created_at, started_at,
    completed_at, crashed, timed_out, execution_time_ms]. *)
Record job_summary := Summary {
  sum_id : string;
  sum_status : job_status;
  sum_created_at : Z;
  sum_started_at : option Z;
  sum_completed_at : option Z;
  sum_crashed : Z;
  sum_timed_out : Z;
  sum_execution_time_ms : option Z
}.

Definition summary (row : string * Job.t) : job_summary :=
  Summary row.1 (Job.status row.2) (Job.created_at row.2) (Job.started_at row.2)
          (Job.completed_at row.2) (Job.crashed row.2) (Job.timed_out row.2)
          (Job.execution_time_ms row.2).

(** [parseInt(x) || d], for [parseInt(x)] given as an integer or [None] for
    [NaN]: [NaN] and [0] are falsy. *)
Definition or_default (parsed : option Z) (d : Z) : Z :=
  match parsed with
  | None | Some 0 => d
  | Some n => n
  end.

(** [LIMIT ? OFFSET ?] of SQLite: a negative offset counts as 0 and a
    negative limit is no limit. *)
Definition limit_offset {A} (limit offset : Z) (rows : list A) : list A :=
  let rest := drop (Z.to_nat offset) rows in
  if limit <? 0 then rest else take (Z.to_nat limit) rest.

(** [ORDER BY created_at DESC]. *)
Definition newer (a b : string * Job.t) : Prop :=
  Job.created_at b.2 <= Job.created_at a.2.

#[global] Instance newer_dec a b : Decision (newer a b) := Z_le_dec _ _.

(** [WHERE api_key = ? ORDER BY created_at DESC].  SQLite leaves the order
    of rows with the same [created_at] open; here they keep the order in
    which the table enumerates them. *)
Definition owned_rows (apiKey : string) (tbl : gmap string Job.t) : list (string * Job.t) :=
  merge_sort newer
    (filter (fun row : string * Job.t => Job.api_key row.2 = apiKey) (map_to_list tbl)).

(** The callback of the listing. *)
Definition jobsHandler (err : option jsstring) (apiKey : string)
    (limit offset : option Z) (w : world) : reply (list job_summary) :=
  match err with
  | Some _ => Answered (Error 500 "Database error")
  | None =>
      let limit := or_default limit 100 in
      let offset := or_default offset 0 in
      Json (summary <$> limit_offset limit offset (owned_rows apiKey (jobs w)))
  end.

Definition getJobs (e : env) (err : option jsstring) (key : option string)
    (limit offset : option Z) (w : world) : reply (list job_summary) * world :=
  match authenticateApiKey e (with_key key) w with
  | (inl res, w') => (Answered res, w')
  | (inr apiKey, w') => (jobsHandler err apiKey limit offset w', w')
  end.

(** ** [initDatabase] *)

(** The tables exist in every [world]; what is left of [initDatabase] is
    [INSERT OR IGNORE INTO api_keys] of the default key.  An error of the
    statement ([err]) is logged and nothing else. *)
Definition initDatabase (err : option jsstring) (w : world) : world :=
  match err with
  | Some _ => w
  | None => World (jobs w) ({[ "test-api-key-123" ]} ∪ api_keys w) (clock w) (trace w)
  end.

(** ** [cleanupOrphanedContainers] *)

Definition PROJECT_LABEL : string := "java-executor-service".

(** The containers of the Docker daemon, by [Id], with their labels. *)
Abbreviation daemon := (gmap string (gmap string string)).

(** [Labels] of the container [executeJavaInDocker] creates. *)
Definition Labels (jobId : string) : gmap string string :=
  {[ "project" := PROJECT_LABEL; "jobId" := jobId ]}.

(** [filters: { label: ['project=java-executor-service'] }] *)
Definition orphan (entry : string * gmap string string) : Prop :=
  entry.2 !! "project" = Some PROJECT_LABEL.

#[global] Instance orphan_dec entry : Decision (orphan entry).
Proof. unfold orphan. apply _. Defined.

(** How Docker answers the sweep: the error of [listContainers], and of
    [container.remove({ force: true })] for each container. *)
Record sweep := Sweep {
  list_fails : option jsstring;
  remove_fails : string -> option jsstring
}.

(** The body of the loop: a rejected removal is logged and the container
    stays. *)
Definition removeForced (s : sweep) (d : daemon) (id : string) : daemon :=
  match remove_fails s id with
  | Some _ => d
  | None => delete id d
  end.

Definition cleanupOrphanedContainers (s : sweep) (d : daemon) : daemon :=
  match list_fails s with
  | Some _ => d
  | None => foldl (removeForced s) d (map_to_list (filter orphan d)).*1
  end.

(** ** The samples of a sequence of statistics frames *)

(** One step of a running maximum, as the handler writes it:
    [if (value > old) old = value]. *)
Definition bump (old value : float) : float := if gt value old then value else old.

(** The CPU percentages of the frames that could be read. *)
Definition cpu_samples (frames : list (option stats_frame)) : list float :=
  flat_map (fun data => match data with Some stats => [cpuPercent stats] | None => [] end)
           frames.

(** The memory figures, in MB, of the frames that have one. *)
Definition memory_samples (frames : list (option stats_frame)) : list float :=
  flat_map (fun data =>
              match data with
              | Some stats =>
                  match memory_stats stats with
                  | Some usage => [(usage / (1024 * 1024))%float]
                  | None => []
                  end
              | None => []
              end) frames.

(** ** More ways to read a log *)

Definition is_remove (o : op) : bool :=
  match o with Remove _ _ => true | _ => false end.

Definition is_create (o : op) : bool :=
  match o with CreateContainer _ _ => true | _ => false end.

(** The calls to Docker. *)
Definition is_docker (o : op) : bool :=
  match o with
  | CreateContainer _ _ | PutArchive _ _ _ | Attach _ | Start _ | Stats _
  | Wait _ | Kill _ | Remove _ _ => true
  | _ => false
  end.

(** A container has been created: [docker.createContainer] was fulfilled. *)
Definition container_created (calls : list call) : bool :=
  existsb (fun c => c_ok c && is_create (c_op c)) calls.

(** ** More scenarios *)

Module Sample.

(** Two jobs of one key and one job of another. *)
Definition three_jobs : world :=
  World {[ "job-1" := Job.inserted "key-a" Scenario.source [] [] 100;
           "job-2" := Job.inserted "key-b" Scenario.source [] [] 200;
           "job-3" := Job.inserted "key-a" Scenario.source [] [] 300 ]}
        {[ "key-a"; "key-b" ]} 1000 [].

(** One container of a job, one of something else. *)
Definition two_containers : daemon :=
  {[ "c0ffee" := Labels "job-1"; "beef" := {[ "project" := "other" ]} ]}.

(** [listContainers] and every removal are fulfilled. *)
Definition calm : sweep := Sweep None (fun _ => None).

End Sample.

(** * Properties *)

(** ** The table and the log under one call *)

Section Run.

Variable e : env.

Lemma perform_kill cid w :
  exists c, c_op c = Kill cid /\
    snd (perform e (Kill cid) w) =
    World (jobs w) (api_keys w) (clock w + Z.of_N (latency e (Kill cid))) (trace w ++ [c]).
Proof.
  unfold perform, settle. simpl.
  destruct (fails e (Kill cid)); eexists; (split; [|reflexivity]); done.
Qed.

(** The handlers that run while [container.wait()] is pending touch the
    closure's variables and kill the container; they never write a row. *)
Lemma deliver_fold cid evs l w l' w' :
  foldl (deliver e cid) (l, w) evs = (l', w') ->
  container l' = container l /\ timeout l' = timeout l /\
  startTime l' = startTime l /\
  timedOut l' = timedOut l || fired evs /\
  output l' = demux (chunks_of evs) (output l) /\
  peak l' = sample (frames_of evs) (peak l) /\
  jobs w' = jobs w /\ api_keys w' = api_keys w /\ clock w <= clock w' /\
  exists kills, trace w' = trace w ++ kills
                /\ Forall (fun c => c_op c = Kill cid) kills.
Proof.
  revert l w. induction evs as [|ev evs IH]; intros l w H; simpl in H.
  - injection H as <- <-. rewrite orb_false_r.
    repeat split; try done; try lia. exists []. by rewrite app_nil_r.
  - destruct ev; simpl in H.
    + apply IH in H. simpl in H. exact H.
    + apply IH in H. simpl in H. exact H.
    + destruct (perform_kill cid w) as (c & Hc & Hw). rewrite Hw in H.
      apply IH in H. simpl in H.
      destruct H as (? & ? & ? & ? & ? & ? & ? & ? & Hcl & kills & Htr & Hk).
      rewrite orb_true_r. repeat split; try done; try lia.
      exists (c :: kills). rewrite Htr, <- app_assoc. split; [done|].
      by constructor.
Qed.

End Run.

(** *** Running [executeJavaInDocker] symbolically

    [run_cases] follows the function call by call, splitting on whether the
    environment rejects the call at hand. *)

Ltac reduce_run :=
  cbn beta iota zeta delta
    [constraint from_option fst snd sql_effect
     container timeout peak timedOut startTime output jobs api_keys clock trace].

Ltac unfold_run :=
  unfold executeJavaInDocker, tryBlock, selectJob, await, attempt, wait, assign,
    read, throw, perform, settle, mbind, M_bind, mret, M_ret;
  reduce_run.

Ltac head_scrutinee t :=
  lazymatch t with
  | match ?x with _ => _ end => head_scrutinee x
  | (match ?x with _ => _ end) _ _ => head_scrutinee x
  | _ => t
  end.

Ltac use_wait_facts :=
  repeat match goal with
    | H : container ?l = _ |- context [container ?l] => rewrite H
    | H : timeout ?l = _ |- context [timeout ?l] => rewrite H
    | H : startTime ?l = _ |- context [startTime ?l] => rewrite H
    | H : timedOut ?l = _ |- context [timedOut ?l] => rewrite H
    | H : output ?l = _ |- context [output ?l] => rewrite H
    | H : peak ?l = _ |- context [peak ?l] => rewrite H
    | H : jobs ?w = _ |- context [jobs ?w] => rewrite H
    | H : api_keys ?w = _ |- context [api_keys ?w] => rewrite H
    | H : trace ?w = _ |- context [trace ?w] => rewrite H
    end.

Ltac step :=
  lazymatch goal with
  | |- ?lhs = _ -> _ =>
      let s := head_scrutinee lhs in
      lazymatch s with
      | foldl _ _ _ =>
          let H := fresh "Hwait" in
          let kills := fresh "kills" in
          destruct s as [? ?] eqn:H; apply deliver_fold in H;
          cbn [container timeout peak timedOut startTime output
               jobs api_keys clock trace] in H;
          destruct H as (? & ? & ? & ? & ? & ? & ? & ? & ? & kills & ? & ?)
      | fails _ _ => destruct s eqn:?
      | _ !! _ => destruct s eqn:?
      end
  end;
  reduce_run; use_wait_facts; reduce_run.

Ltac last_remove :=
  repeat match goal with
    | |- context [fails ?e (Remove ?c ?f)] => destruct (fails e (Remove c f)) eqn:?
    end;
  reduce_run.

Ltac run_cases := unfold_run; repeat step; last_remove.

Ltac in_trace := rewrite ?elem_of_app, ?list_elem_of_singleton; eauto 20.

Ltac close_untouched :=
  rewrite ?lookup_alter_eq;
  match goal with H : jobs _ !! _ = Some _ |- _ => rewrite H end;
  cbn [fmap option_fmap option_map];
  eexists; split; [reflexivity | by repeat split].

(** A run that resolves with [{ success: false, error }] has written the
    failure statement with that error, over a row whose result columns
    were still those of the start. *)
Lemma run_failure e jobId w w' error :
  executeJavaInDocker e jobId w = (Failure error, w') ->
  exists tbl now,
    jobs w' = alter (Job.set_failed error now) jobId tbl /\
    forall row, jobs w !! jobId = Some row ->
      exists row1, tbl !! jobId = Some row1 /\ untouched row row1.
Proof.
  run_cases; (intros [= <- <-] || (intros; discriminate)).
  all: cbn [jobs]; eexists _, _; (split; [reflexivity|]); intros row Hrow.
  all: try congruence.
  all: try injection Hrow as ->.
  all: close_untouched.
Qed.

(** A run that resolves with [{ success: true }] found the job, was
    rejected nowhere, and has written the result statement. *)
Lemma run_success e jobId w w' :
  executeJavaInDocker e jobId w = (Success, w') ->
  exists job tbl row1 put0 put1 started0 started1 waited0 waited1 now,
    jobs w !! jobId = Some job /\
    tbl !! jobId = Some row1 /\ untouched job row1 /\
    jobs w' =
      alter (Job.set_done (substring (stdout (collected e)) 0 10000)
                          (substring (stderr (collected e)) 0 10000)
                          (crashed_flag e) (timed_out_flag e)
                          (maxMemoryMb (sampled e)) (maxCpuPercent (sampled e))
                          (waited1 - clock w) now) jobId tbl /\
    Call (PutArchive (created e)
            (createTarArchive (Job.java_code job) (Job.input_files job))
            (lit "/app")) put0 put1 true ∈ trace w' /\
    Call (Start (created e)) started0 started1 true ∈ trace w' /\
    Call (Wait (created e)) waited0 waited1 true ∈ trace w' /\
    clock w <= started0 /\ started0 <= started1 /\ started1 <= waited0 /\
    waited0 <= waited1 /\
    Call (SelectJob jobId) (clock w) (clock w + Z.of_N (latency e (SelectJob jobId))) true
      ∈ trace w'.
Proof.
  run_cases; (intros [= <-] || (intros; discriminate)).
  all: cbn [jobs trace].
  all: eexists _, _, _, _, _, _, _, _, _, _.
  all: split; [reflexivity|].
  all: split; [|split; [|split; [reflexivity|]]];
    [ rewrite !lookup_alter_eq;
      match goal with H : jobs _ !! _ = Some _ |- _ => rewrite H end; reflexivity
    | by repeat split
    | ].
  all: repeat split;
    [ in_trace | in_trace | in_trace | lia | lia | lia | lia | in_trace ].
Qed.


(** ** Text *)



(** ** The outcome of a run: timeout, crash and failure *)



(** The deadline fires and the container exits with 0 all the same: the
    job is a timeout. *)
Remark late_exit_is_timeout :
  result_of <$> jobs (snd (executeJavaInDocker Scenario.late_exit "job-1" Scenario.fresh))
                  !! "job-1"
  = Some (Some (ResultView [] [] false true (Some 0%float) (Some 0%float) (Some 100))).
Proof. vm_compute. reflexivity. Qed.



(** ** The execution time *)

(** C7, as stated, fails: every call takes 10 ms here, the run is entered
    at 1000, the output stream is opened at 1050, the container is started
    at 1060 and [container.wait()] is fulfilled at 1090; the row records 90,
    the time since the run was entered, and not 40, 30 or 20. *)
Lemma execution_time_includes_preparation :
  let w' := snd (executeJavaInDocker Scenario.hello "job-1" Scenario.fresh) in
  clock Scenario.fresh = 1000 /\
  calls_of is_observer (trace w') =
    [Call (Attach "c0ffee") 1050 1060 true; Call (Start "c0ffee") 1060 1070 true;
     Call (Stats "c0ffee") 1070 1080 true] /\
  calls_of is_wait (trace w') = [Call (Wait "c0ffee") 1080 1090 true] /\
  Job.execution_time_ms <$> jobs w' !! "job-1" = Some (Some 90) /\
  90 <> 1090 - 1050 /\ 90 <> 1090 - 1060 /\ 90 <> 1090 - 1070.
Proof. vm_compute. repeat split; discriminate. Qed.

(** C7, amended: [execution_time_ms] of a job that completes is the time
    from the entry of [executeJavaInDocker], before the job is read from
    the table, to the fulfilment of [container.wait()]; it is at least the
    time since the container was started. *)
Theorem execution_time_from_entry e jobId w w' :
  executeJavaInDocker e jobId w = (Success, w') ->
  exists row selected started0 started1 waited0 waited1,
    jobs w' !! jobId = Some row /\
    Call (SelectJob jobId) (clock w) selected true ∈ trace w' /\
    Call (Start (created e)) started0 started1 true ∈ trace w' /\
    Call (Wait (created e)) waited0 waited1 true ∈ trace w' /\
    Job.execution_time_ms row = Some (waited1 - clock w) /\
    clock w <= started0 /\ started0 <= waited1 /\
    waited1 - started0 <= waited1 - clock w.
Proof.
  intros Hrun.
  destruct (run_success e jobId w w' Hrun)
    as (job & tbl & row1 & ? & ? & s0 & s1 & w0 & w1 & now
        & _ & Htbl & _ & Hjobs & _ & Hs & Hw & ? & ? & ? & ? & Hsel).
  rewrite Hjobs, lookup_alter_eq, Htbl.
  eexists _, _, s0, s1, w0, w1. split; [reflexivity|].
  cbn. repeat split; try done; lia.
Qed.

Lemma execution_time_from_entry_witness :
  exists row selected started0 started1 waited0 waited1,
    jobs (snd (executeJavaInDocker Scenario.hello "job-1" Scenario.fresh)) !! "job-1"
      = Some row /\
    Call (SelectJob "job-1") 1000 selected true
      ∈ trace (snd (executeJavaInDocker Scenario.hello "job-1" Scenario.fresh)) /\
    Call (Start "c0ffee") started0 started1 true
      ∈ trace (snd (executeJavaInDocker Scenario.hello "job-1" Scenario.fresh)) /\
    Call (Wait "c0ffee") waited0 waited1 true
      ∈ trace (snd (executeJavaInDocker Scenario.hello "job-1" Scenario.fresh)) /\
    Job.execution_time_ms row = Some (waited1 - 1000) /\
    1000 <= started0 /\ started0 <= waited1 /\
    waited1 - started0 <= waited1 - 1000.
Proof.
  apply (execution_time_from_entry Scenario.hello "job-1" Scenario.fresh).
  vm_compute. reflexivity.
Defined.

(** ** The size of the stored output *)




(** ** The log of a run *)

Lemma replay_app a b tbl : replay (a ++ b) tbl = replay b (replay a tbl).
Proof. apply foldl_app. Qed.

Lemma apply_kill cid c tbl : c_op c = Kill cid -> apply_call c tbl = tbl.
Proof. unfold apply_call. intros ->. by destruct (c_ok c). Qed.

Lemma replay_kills cid kills tbl :
  Forall (fun c => c_op c = Kill cid) kills -> replay kills tbl = tbl.
Proof.
  induction 1 as [|c kills Hc _ IH]; [done|].
  unfold replay in *. cbn. by rewrite (apply_kill cid c tbl Hc).
Qed.

Lemma observers_app a b : observers (a ++ b) = observers a ++ observers b.
Proof. unfold observers. by rewrite map_app, List.filter_app. Qed.

Lemma observers_kills cid kills :
  Forall (fun c => c_op c = Kill cid) kills -> observers kills = [].
Proof.
  induction 1 as [|c kills Hc _ IH]; [done|].
  unfold observers in *. cbn. by rewrite Hc.
Qed.

Lemma finalized_app a b :
  List.filter finalized (a ++ b) = List.filter finalized a ++ List.filter finalized b.
Proof. apply List.filter_app. Qed.

Lemma finalized_kills cid kills :
  Forall (fun c => c_op c = Kill cid) kills -> List.filter finalized kills = [].
Proof.
  induction 1 as [|c kills Hc _ IH]; [done|].
  cbn. unfold finalized at 1. rewrite Hc. cbn. by rewrite andb_false_r.
Qed.

Lemma monotone_app id a b tbl :
  monotone id a tbl -> monotone id b (replay a tbl) -> monotone id (a ++ b) tbl.
Proof.
  revert tbl. induction a as [|c a IH]; intros tbl; [done|].
  cbn. intros [H1 H2] H3. split; [done|]. by apply IH.
Qed.

Lemma monotone_kills id cid kills tbl :
  Forall (fun c => c_op c = Kill cid) kills -> monotone id kills tbl.
Proof.
  intros H. revert tbl. induction H as [|c kills Hc _ IH]; intros tbl; [done|].
  cbn. rewrite (apply_kill cid c tbl Hc). split; [lia|apply IH].
Qed.

(** The log of a run, as an extension of the log before it. *)
Ltac run_log :=
  run_cases; intros [= <- <-]; cbn [trace jobs]; rewrite <- ?app_assoc;
  eexists; (split; [reflexivity|]).

(** C9, amended: in every run the output stream is opened first, the
    container is started next, and the statistics stream is opened last:
    the container is never started before the output stream is opened, nor
    the statistics stream opened before the container is started; a run
    that succeeds has made the three calls. *)
Theorem observer_order e jobId w :
  exists delta,
    trace (snd (executeJavaInDocker e jobId w)) = trace w ++ delta /\
    observers delta `prefix_of`
      [Attach (created e); Start (created e); Stats (created e)] /\
    (fst (executeJavaInDocker e jobId w) = Success ->
     observers delta = [Attach (created e); Start (created e); Stats (created e)]).
Proof.
  destruct (executeJavaInDocker e jobId w) as [out w'] eqn:Hrun. cbn [fst snd].
  revert Hrun. run_log.
  all: rewrite ?observers_app;
    try match goal with
      | H : Forall _ ?kills |- context [observers ?kills] =>
          rewrite (observers_kills _ _ H)
      end;
    cbn [observers map List.filter c_op is_observer app].
  all: split; [|try discriminate; done].
  all: eexists; reflexivity.
Qed.

(** C9, as stated, fails: the container is started before the statistics
    stream is opened. *)
Lemma container_started_before_stats :
  observers (trace (snd (executeJavaInDocker Scenario.hello "job-1" Scenario.fresh)))
    = [Attach "c0ffee"; Start "c0ffee"; Stats "c0ffee"] /\
  observers (trace (snd (executeJavaInDocker Scenario.hello "job-1" Scenario.fresh)))
    <> [Attach "c0ffee"; Stats "c0ffee"; Start "c0ffee"].
Proof. vm_compute. split; [reflexivity | discriminate]. Qed.

(** ** Finalizing *)

Ltac use_kills :=
  repeat match goal with
    | H : Forall _ ?kills |- context [replay ?kills _] => rewrite (replay_kills _ _ _ H)
    | H : Forall _ ?kills |- context [List.filter finalized ?kills] =>
        rewrite (finalized_kills _ _ H)
    end.

(** C5, as stated, fails: the table accepts a second statement that writes
    [status = 'done'] for a job that is done, and the row changes.  Here
    the job is run to success and then run again with
    [docker.createContainer] rejected. *)
Lemma second_finalize_overwrites :
  let w1 := snd (executeJavaInDocker Scenario.hello "job-1" Scenario.fresh) in
  let w2 := snd (executeJavaInDocker (Scenario.no_image (lit "no such image")) "job-1" w1) in
  Job.status <$> jobs w1 !! "job-1" = Some done /\
  Job.crashed <$> jobs w1 !! "job-1" = Some 0 /\
  map c_ok (calls_of is_finalize (trace w2)) = [true; true] /\
  Job.status <$> jobs w2 !! "job-1" = Some done /\
  Job.crashed <$> jobs w2 !! "job-1" = Some 1 /\
  Job.stderr <$> jobs w2 !! "job-1" = Some (Some (lit "no such image")).
Proof. vm_compute. repeat split. Qed.

(** C5, amended: the result statement writes [status = 'done'] and all the
    result columns at once; the table refuses no statement that writes
    [status = 'done'], whatever the status of the row; and a run issues
    such statements so that exactly one is fulfilled when the promise
    resolves, and none when it stays pending. *)
Theorem finalize_once_per_run e jobId w :
  exists delta,
    trace (snd (executeJavaInDocker e jobId w)) = trace w ++ delta /\
    jobs (snd (executeJavaInDocker e jobId w)) = replay delta (jobs w) /\
    length (List.filter finalized delta) =
      match fst (executeJavaInDocker e jobId w) with
      | Pending _ => 0%nat
      | _ => 1%nat
      end /\
    (forall o tbl, is_finalize o = true -> constraint o tbl = None) /\
    (forall id out err crashed timed_out mem cpu ms now tbl row,
        tbl !! id = Some row ->
        sql_effect (UpdateDone id out err crashed timed_out mem cpu ms) now tbl !! id
        = Some (Job.Make (Job.api_key row) done (Job.java_code row) (Job.args row)
                         (Job.input_files row) (Some out) (Some err) crashed timed_out
                         (Some mem) (Some cpu) (Some ms) (Job.created_at row)
                         (Job.started_at row) (Some now) (Job.container_id row))).
Proof.
  destruct (executeJavaInDocker e jobId w) as [out w'] eqn:Hrun. cbn [fst snd].
  revert Hrun. run_log.
  all: split; [rewrite ?replay_app; use_kills; reflexivity|].
  all: split;
    [rewrite ?finalized_app; use_kills;
     cbn [List.filter finalized c_ok c_op is_finalize andb app]; reflexivity|].
  all: split; [by intros [] |].
  all: intros id out' err crashed timed_out mem cpu ms now tbl row Hrow.
  all: cbn; by rewrite lookup_alter_eq, Hrow.
Qed.

(** When the statement of the [catch] block is rejected as well, no
    statement has written [status = 'done'] and the promise stays pending. *)
Remark pending_run_finalizes_nothing :
  let run := executeJavaInDocker Scenario.no_image_locked "job-1" Scenario.fresh in
  fst run = Pending (lit "SQLITE_BUSY: database is locked") /\
  map c_ok (calls_of is_finalize (trace (snd run))) = [false] /\
  Job.status <$> jobs (snd run) !! "job-1" = Some running.
Proof. vm_compute. repeat split. Qed.

(** ** The status of a job along a run *)

(** C8, as stated, fails: a run on a job that is done does not refuse; it
    marks the job running again, so the status moves backwards. *)
Lemma rerun_marks_done_job_running :
  let w1 := snd (executeJavaInDocker Scenario.hello "job-1" Scenario.fresh) in
  let run2 := executeJavaInDocker Scenario.hello "job-1" w1 in
  let delta := drop (length (trace w1)) (trace (snd run2)) in
  Job.status <$> jobs w1 !! "job-1" = Some done /\
  fst run2 = Success /\
  map c_ok (calls_of is_mark_running delta) = [true] /\
  Job.status <$> replay (take 2 delta) (jobs w1) !! "job-1" = Some running /\
  ~ monotone "job-1" delta (jobs w1).
Proof.
  vm_compute. repeat split.
  intros (_ & H & _). vm_compute in H. lia.
Qed.

Lemma monotone_one id c tbl :
  (rank (Job.status <$> tbl !! id) <= rank (Job.status <$> apply_call c tbl !! id))%nat ->
  monotone id [c] tbl.
Proof. by split. Qed.

Ltac mono_one :=
  apply monotone_one;
  cbn [replay foldl apply_call c_ok c_op c_to sql_effect];
  rewrite ?lookup_alter_eq;
  repeat match goal with
    | H : jobs _ !! _ = _ |- _ => rewrite H
    end;
  cbn;
  repeat match goal with
    | H : Job.status _ = _ |- _ => rewrite H
    end;
  cbn; lia.

Ltac mono :=
  repeat first
    [ apply monotone_app;
      [ first [ eapply monotone_kills; eassumption | mono_one ] | use_kills ]
    | mono_one ].

(** C8, amended: the run does not test the status on hydration: whenever
    the row exists and the two statements are not rejected, the job is
    marked running, whatever its status was; and along a run that starts
    from [not_started] no call moves the status backwards. *)
Theorem status_along_run e jobId w row :
  jobs w !! jobId = Some row ->
  exists delta,
    trace (snd (executeJavaInDocker e jobId w)) = trace w ++ delta /\
    jobs (snd (executeJavaInDocker e jobId w)) = replay delta (jobs w) /\
    (fails e (SelectJob jobId) = None -> fails e (UpdateRunning jobId) = None ->
     exists from to, Call (UpdateRunning jobId) from to true ∈ delta) /\
    (Job.status row = not_started -> monotone jobId delta (jobs w)).
Proof.
  intros Hrow.
  destruct (executeJavaInDocker e jobId w) as [out w'] eqn:Hrun. cbn [fst snd].
  revert Hrun. run_log.
  all: try discriminate Hrow.
  all: try injection Hrow as ->.
  all: split; [rewrite ?replay_app; use_kills; reflexivity|].
  all: split; [intros; try congruence; eexists _, _; in_trace|].
  all: intros Hst; mono.
Qed.

Lemma status_along_run_witness :
  exists delta,
    trace (snd (executeJavaInDocker Scenario.hello "job-1" Scenario.fresh))
      = trace Scenario.fresh ++ delta /\
    jobs (snd (executeJavaInDocker Scenario.hello "job-1" Scenario.fresh))
      = replay delta (jobs Scenario.fresh) /\
    (fails Scenario.hello (SelectJob "job-1") = None ->
     fails Scenario.hello (UpdateRunning "job-1") = None ->
     exists from to, Call (UpdateRunning "job-1") from to true ∈ delta) /\
    (Job.status (Job.inserted "test-api-key-123" Scenario.source [] [] 990) = not_started ->
     monotone "job-1" delta (jobs Scenario.fresh)).
Proof.
  apply (status_along_run Scenario.hello "job-1" Scenario.fresh
           (Job.inserted "test-api-key-123" Scenario.source [] [] 990)).
  vm_compute. reflexivity.
Defined.

(** ** Submitting *)




Lemma perform_ok e o w :
  constraint o (jobs w) = None -> fails e o = None ->
  perform e o w =
  (None, World (sql_effect o (clock w + Z.of_N (latency e o)) (jobs w)) (api_keys w)
               (clock w + Z.of_N (latency e o))
               (trace w ++ [Call o (clock w) (clock w + Z.of_N (latency e o)) true])).
Proof. intros Hc Hf. unfold perform, settle. by rewrite Hc, Hf. Qed.




(** ** The output stream handler *)

Remark toString_hi : toString Scenario.hi = lit "hi" ++ [0x0A%N].
Proof. reflexivity. Qed.

Remark toString_accent : toString [xc3; xa9] = [0xE9%N].
Proof. reflexivity. Qed.

Remark toString_astral : toString [xf0; x9f; x98; x80] = [0xD83D%N; 0xDE00%N].
Proof. reflexivity. Qed.

Remark toString_ill_formed :
  toString [xff; x41; xc3; x41; xe2; x82] = [0xFFFD; 0x41; 0xFFFD; 0x41; 0xFFFD]%N.
Proof. reflexivity. Qed.







(** ** The statistics handler *)

Local Open Scope float_scope.

Remark cpuPercent_sample :
  cpuPercent Scenario.frame1 = 50 /\
  statsOnData (Some Scenario.frame1) (Peaks 0 0) = Peaks 50 100.
Proof. split; reflexivity. Qed.







Local Close Scope float_scope.


(** * More properties *)

(** ** The middleware and the checks of [POST /api/submit] *)

Lemma perform_rejected e o w message :
  from_option Some (fails e o) (constraint o (jobs w)) = Some message ->
  perform e o w =
  (Some message,
   World (jobs w) (api_keys w) (clock w + Z.of_N (latency e o))
         (trace w ++ [Call o (clock w) (clock w + Z.of_N (latency e o)) false])).
Proof. intros H. unfold perform, settle. by rewrite H. Qed.

(** A request without an API key, or with an empty one, is answered 401 by
    every route before anything is read or written. *)
Theorem no_key_no_access e err req jobId limit offset w :
  x_api_key req = None \/ x_api_key req = Some EmptyString ->
  submit e req w = (Error 401 "API key required", w) /\
  getJob e err (x_api_key req) jobId w = (Answered (Error 401 "API key required"), w) /\
  getJobs e err (x_api_key req) limit offset w
    = (Answered (Error 401 "API key required"), w).
Proof.
  intros [H | H]; unfold submit, getJob, getJobs, authenticateApiKey, with_key;
    cbn [x_api_key]; rewrite H; done.
Qed.

Lemma no_key_no_access_witness :
  submit Scenario.hello (Request None Scenario.source [] []) Scenario.fresh
    = (Error 401 "API key required", Scenario.fresh) /\
  getJob Scenario.hello None None "job-1" Scenario.fresh
    = (Answered (Error 401 "API key required"), Scenario.fresh) /\
  getJobs Scenario.hello None None None None Scenario.fresh
    = (Answered (Error 401 "API key required"), Scenario.fresh).
Proof.
  apply (no_key_no_access Scenario.hello None (Request None Scenario.source [] [])
           "job-1" None None Scenario.fresh).
  left. reflexivity.
Defined.

(** A key that is not in [api_keys] gets nowhere: each route answers 401
    (or 500 when the lookup itself fails), the tables are as before, and the
    only call made is the lookup of the key. *)
Theorem unknown_key_is_refused e err req key jobId limit offset w :
  x_api_key req = Some key -> key <> EmptyString -> key ∉ api_keys w ->
  exists status error w',
    submit e req w = (Error status error, w') /\
    getJob e err (Some key) jobId w = (Answered (Error status error), w') /\
    getJobs e err (Some key) limit offset w = (Answered (Error status error), w') /\
    (status = 401 \/ status = 500)%nat /\
    jobs w' = jobs w /\ api_keys w' = api_keys w /\
    exists to ok, trace w' = trace w ++ [Call (SelectKey key) (clock w) to ok].
Proof.
  intros Hkey Hne Hout.
  unfold submit, getJob, getJobs, authenticateApiKey, with_key. cbn [x_api_key].
  rewrite Hkey. destruct (String.eqb_spec key EmptyString) as [|_]; [done|].
  destruct (fails e (SelectKey key)) as [message|] eqn:Hsel.
  - rewrite (perform_rejected e (SelectKey key) w message) by (by cbn; rewrite Hsel).
    eexists _, _, _. repeat split; eauto.
  - rewrite (perform_ok e (SelectKey key) w eq_refl Hsel). cbn [api_keys sql_effect].
    rewrite decide_False by done.
    eexists _, _, _. repeat split; eauto.
Qed.

Lemma unknown_key_is_refused_witness :
  exists status error w',
    submit Scenario.hello (Request (Some "nobody") Scenario.source [] []) Scenario.fresh
      = (Error status error, w') /\
    getJob Scenario.hello None (Some "nobody") "job-1" Scenario.fresh
      = (Answered (Error status error), w') /\
    getJobs Scenario.hello None (Some "nobody") None None Scenario.fresh
      = (Answered (Error status error), w') /\
    (status = 401 \/ status = 500)%nat /\
    jobs w' = jobs Scenario.fresh /\ api_keys w' = api_keys Scenario.fresh /\
    exists to ok,
      trace w' = trace Scenario.fresh ++ [Call (SelectKey "nobody") (clock Scenario.fresh) to ok].
Proof.
  apply (unknown_key_is_refused Scenario.hello None
           (Request (Some "nobody") Scenario.source [] []) "nobody" "job-1" None None
           Scenario.fresh).
  - reflexivity.
  - discriminate.
  - cbn. intros H%elem_of_singleton. discriminate.
Defined.


Lemma authenticated e req w key :
  x_api_key req = Some key -> key <> EmptyString -> key ∈ api_keys w ->
  fails e (SelectKey key) = None ->
  authenticateApiKey e req w =
  (inr key,
   World (jobs w) (api_keys w) (clock w + Z.of_N (latency e (SelectKey key)))
         (trace w ++ [Call (SelectKey key) (clock w)
                           (clock w + Z.of_N (latency e (SelectKey key))) true])).
Proof.
  intros Hkey Hne Hin Hsel. unfold authenticateApiKey. rewrite Hkey.
  destruct (String.eqb_spec key EmptyString) as [|_]; [done|].
  rewrite (perform_ok e (SelectKey key) w eq_refl Hsel). cbn [api_keys sql_effect].
  by rewrite decide_True.
Qed.

(** A submission without [javaCode] is answered 400: no job is inserted
    and nothing but the lookup of the key is done. *)
Theorem submit_requires_code e req w key :
  x_api_key req = Some key -> key <> EmptyString -> key ∈ api_keys w ->
  fails e (SelectKey key) = None ->
  javaCode req = [] ->
  exists w',
    submit e req w = (Error 400 "Java code is required", w') /\
    jobs w' = jobs w /\ api_keys w' = api_keys w /\
    map c_op (drop (length (trace w)) (trace w')) = [SelectKey key].
Proof.
  intros Hkey Hne Hin Hsel Hcode. unfold submit.
  rewrite (authenticated e req w key) by done. rewrite Hcode. cbn [truthy negb].
  eexists. split; [reflexivity|]. cbn [jobs api_keys trace].
  by rewrite drop_app_length.
Qed.

Lemma submit_requires_code_witness :
  exists w',
    submit Scenario.hello (Request (Some "test-api-key-123") [] [] []) Scenario.fresh
      = (Error 400 "Java code is required", w') /\
    jobs w' = jobs Scenario.fresh /\ api_keys w' = api_keys Scenario.fresh /\
    map c_op (drop (length (trace Scenario.fresh)) (trace w'))
      = [SelectKey "test-api-key-123"].
Proof.
  apply (submit_requires_code Scenario.hello
           (Request (Some "test-api-key-123") [] [] []) Scenario.fresh "test-api-key-123").
  - reflexivity.
  - discriminate.
  - cbn. by apply elem_of_singleton.
  - reflexivity.
  - reflexivity.
Defined.

(** When the [INSERT] is rejected - by SQLite, or because the id is taken -
    the submission is answered 500, the table is as before (a job that had
    the id is untouched) and no run is launched: Docker is not called. *)
Theorem submit_insert_rejected e req w key :
  x_api_key req = Some key -> key <> EmptyString -> key ∈ api_keys w ->
  fails e (SelectKey key) = None ->
  javaCode req <> [] ->
  is_Some (jobs w !! uuid e)
  \/ is_Some (fails e (InsertJob (uuid e) key (javaCode req) (args req) (inputFiles req))) ->
  exists w',
    submit e req w = (Error 500 "Failed to create job", w') /\
    jobs w' = jobs w /\ api_keys w' = api_keys w /\
    map (fun c => (c_op c, c_ok c)) (drop (length (trace w)) (trace w'))
      = [(SelectKey key, true);
         (InsertJob (uuid e) key (javaCode req) (args req) (inputFiles req), false)].
Proof.
  intros Hkey Hne Hin Hsel Hcode Hrej. unfold submit.
  rewrite (authenticated e req w key) by done.
  destruct (javaCode req) as [|u code] eqn:Hjc; [done|]. cbn [truthy negb].
  set (w1 := World _ _ _ _).
  assert (exists message,
            from_option Some
              (fails e (InsertJob (uuid e) key (u :: code) (args req) (inputFiles req)))
              (constraint (InsertJob (uuid e) key (u :: code) (args req) (inputFiles req))
                          (jobs w1)) = Some message) as [message Hmsg].
  { cbn [constraint w1 jobs].
    destruct (jobs w !! uuid e) as [row|] eqn:Hrow; [by eexists|].
    destruct Hrej as [[? [=]] | [message ->]]. by eexists. }
  rewrite (perform_rejected e _ w1 message Hmsg).
  eexists. split; [reflexivity|]. cbn [jobs api_keys trace w1 clock].
  rewrite <- app_assoc. by rewrite drop_app_length.
Qed.

Lemma submit_insert_rejected_witness :
  exists w',
    submit Scenario.hello (Request (Some "test-api-key-123") Scenario.source [] [])
           Scenario.fresh
      = (Error 500 "Failed to create job", w') /\
    jobs w' = jobs Scenario.fresh /\ api_keys w' = api_keys Scenario.fresh /\
    map (fun c => (c_op c, c_ok c)) (drop (length (trace Scenario.fresh)) (trace w'))
      = [(SelectKey "test-api-key-123", true);
         (InsertJob "job-1" "test-api-key-123" Scenario.source [] [], false)].
Proof.
  apply (submit_insert_rejected Scenario.hello
           (Request (Some "test-api-key-123") Scenario.source [] [])
           Scenario.fresh "test-api-key-123").
  - reflexivity.
  - discriminate.
  - cbn. by apply elem_of_singleton.
  - reflexivity.
  - discriminate.
  - left. vm_compute. eexists. reflexivity.
Defined.

(** ** What a run leaves alone *)

Lemma run_tables e jobId w :
  api_keys (snd (executeJavaInDocker e jobId w)) = api_keys w /\
  forall other,
    other <> jobId -> jobs (snd (executeJavaInDocker e jobId w)) !! other = jobs w !! other.
Proof.
  destruct (executeJavaInDocker e jobId w) as [out w'] eqn:Hrun. cbn [fst snd].
  revert Hrun. run_cases; intros [= <- <-]; cbn [jobs api_keys].
  all: split; [done|]; intros other Hne; by rewrite ?lookup_alter_ne.
Qed.

(** A run writes the row of its own job only: every other row, and the
    set of API keys, are the same after it. *)
Theorem run_touches_only_its_job e jobId w other :
  other <> jobId ->
  jobs (snd (executeJavaInDocker e jobId w)) !! other = jobs w !! other /\
  api_keys (snd (executeJavaInDocker e jobId w)) = api_keys w.
Proof.
  intros Hne. destruct (run_tables e jobId w) as [Hkeys Hjobs]. split; auto.
Qed.

Lemma run_touches_only_its_job_witness :
  jobs (snd (executeJavaInDocker Scenario.hello "job-1" Sample.three_jobs)) !! "job-2"
    = jobs Sample.three_jobs !! "job-2" /\
  api_keys (snd (executeJavaInDocker Scenario.hello "job-1" Sample.three_jobs))
    = api_keys Sample.three_jobs.
Proof.
  apply (run_touches_only_its_job Scenario.hello "job-1" Sample.three_jobs "job-2").
  discriminate.
Defined.

Lemma perform_tables e o w :
  api_keys (snd (perform e o w)) = api_keys w /\
  (jobs (snd (perform e o w)) = jobs w
   \/ fst (perform e o w) = None
      /\ jobs (snd (perform e o w)) = sql_effect o (clock w + Z.of_N (latency e o)) (jobs w)).
Proof.
  unfold perform, settle. destruct (from_option _ _ _); cbn; auto.
Qed.

Lemma authenticate_keeps_tables e req w :
  jobs (snd (authenticateApiKey e req w)) = jobs w /\
  api_keys (snd (authenticateApiKey e req w)) = api_keys w.
Proof.
  unfold authenticateApiKey.
  destruct (x_api_key req) as [key|]; [|done].
  destruct (String.eqb key EmptyString); [done|].
  pose proof (perform_tables e (SelectKey key) w) as [Hk Hj].
  destruct (perform e (SelectKey key) w) as [[message|] w1]; cbn [fst snd] in *.
  - split; [|done]. by destruct Hj as [-> | [[=] _]].
  - assert (jobs w1 = jobs w) as Hj1 by (by destruct Hj as [-> | [_ ->]]).
    destruct (decide _); cbn [snd]; by rewrite Hj1.
Qed.

(** A submission writes the row of its own job only: the rows of all other
    ids, and the API keys, are as before, whatever the answer. *)
Theorem submit_touches_only_its_job e req w other :
  other <> uuid e ->
  jobs (snd (submit e req w)) !! other = jobs w !! other /\
  api_keys (snd (submit e req w)) = api_keys w.
Proof.
  intros Hne. unfold submit.
  pose proof (authenticate_keeps_tables e req w) as [Hj Hk].
  destruct (authenticateApiKey e req w) as [[res|key] w1]; cbn [snd] in *;
    [by rewrite Hj, Hk|].
  destruct (negb _); cbn [snd]; [by rewrite Hj, Hk|].
  pose proof (perform_tables e
                (InsertJob (uuid e) key (javaCode req) (args req) (inputFiles req)) w1)
    as [Hk2 Hj2].
  destruct (perform e _ w1) as [[message|] w2]; cbn [fst snd] in *.
  - destruct Hj2 as [-> | [[=] _]]. by rewrite Hj, Hk2, Hk.
  - destruct (run_tables e (uuid e) w2) as [-> Hother]. rewrite (Hother other Hne).
    rewrite Hk2, Hk. split; [|done].
    destruct Hj2 as [-> | [_ ->]]; [by rewrite Hj|].
    cbn [sql_effect]. by rewrite lookup_insert_ne, Hj.
Qed.

Lemma submit_touches_only_its_job_witness :
  jobs (snd (submit Scenario.hello Scenario.upward Sample.three_jobs)) !! "job-2"
    = jobs Sample.three_jobs !! "job-2" /\
  api_keys (snd (submit Scenario.hello Scenario.upward Sample.three_jobs))
    = api_keys Sample.three_jobs.
Proof.
  apply (submit_touches_only_its_job Scenario.hello Scenario.upward Sample.three_jobs "job-2").
  discriminate.
Defined.


(** ** How a run ends *)

(** When the promise of a run resolves - with success or with a failure -
    the job, if it exists, is done and has its [completed_at]. *)
Theorem resolved_run_finishes_job e jobId w row :
  jobs w !! jobId = Some row ->
  (forall error, fst (executeJavaInDocker e jobId w) <> Pending error) ->
  exists row',
    jobs (snd (executeJavaInDocker e jobId w)) !! jobId = Some row' /\
    Job.status row' = done /\ is_Some (Job.completed_at row').
Proof.
  intros Hrow Hres.
  destruct (executeJavaInDocker e jobId w) as [[|error|error] w'] eqn:Hrun;
    cbn [fst snd] in *.
  - destruct (run_success e jobId w w' Hrun)
      as (job & tbl & row1 & ? & ? & ? & ? & ? & ? & now & _ & Htbl & _ & -> & _).
    rewrite lookup_alter_eq, Htbl. eexists. split; [reflexivity|]. by cbn.
  - destruct (run_failure e jobId w w' error Hrun) as (tbl & now & -> & Htbl).
    destruct (Htbl row Hrow) as (row1 & Hrow1 & _).
    rewrite lookup_alter_eq, Hrow1. eexists. split; [reflexivity|]. by cbn.
  - by destruct (Hres error).
Qed.

Lemma resolved_run_finishes_job_witness :
  exists row',
    jobs (snd (executeJavaInDocker (Scenario.no_image (lit "no such image"))
                                   "job-1" Scenario.fresh)) !! "job-1" = Some row' /\
    Job.status row' = done /\ is_Some (Job.completed_at row').
Proof.
  apply (resolved_run_finishes_job (Scenario.no_image (lit "no such image"))
           "job-1" Scenario.fresh
           (Job.inserted "test-api-key-123" Scenario.source [] [] 990)).
  - vm_compute. reflexivity.
  - intros error. vm_compute. discriminate.
Defined.

Lemma calls_of_app p a b : calls_of p (a ++ b) = calls_of p a ++ calls_of p b.
Proof. apply List.filter_app. Qed.

Lemma calls_of_kills cid p kills :
  (forall c, p (Kill c) = false) ->
  Forall (fun c => c_op c = Kill cid) kills -> calls_of p kills = [].
Proof.
  intros Hp. induction 1 as [|c kills Hc _ IH]; [done|].
  unfold calls_of in *. cbn. by rewrite Hc, Hp.
Qed.

Lemma container_created_app a b :
  container_created (a ++ b) = container_created a || container_created b.
Proof. apply existsb_app. Qed.

Lemma container_created_kills cid kills :
  Forall (fun c => c_op c = Kill cid) kills -> container_created kills = false.
Proof.
  induction 1 as [|c kills Hc _ IH]; [done|].
  unfold container_created in *. cbn. rewrite Hc. cbn. by rewrite andb_false_r.
Qed.

(** The container of a run is removed exactly when the promise resolves:
    once, without force, after a success; once, with force, after a
    failure, but only when a container had been created; and not at all when
    the promise stays pending, even though a container may exist. *)
Theorem container_removal e jobId w :
  exists delta,
    trace (snd (executeJavaInDocker e jobId w)) = trace w ++ delta /\
    map c_op (calls_of is_remove delta) =
      match fst (executeJavaInDocker e jobId w) with
      | Success => [Remove (created e) false]
      | Failure _ =>
          if container_created delta then [Remove (created e) true] else []
      | Pending _ => []
      end.
Proof.
  destruct (executeJavaInDocker e jobId w) as [out w'] eqn:Hrun. cbn [fst snd].
  revert Hrun. run_log.
  all: rewrite ?calls_of_app, ?container_created_app;
    repeat match goal with
      | H : Forall _ ?kills |- context [calls_of is_remove ?kills] =>
          rewrite (calls_of_kills _ is_remove kills (fun _ => eq_refl) H)
      | H : Forall _ ?kills |- context [container_created ?kills] =>
          rewrite (container_created_kills _ kills H)
      end;
    reflexivity.
Qed.

(** A run on a job that is not in the table fails with [Job not found]
    right after the lookup: the table is unchanged and Docker is not called. *)
Theorem run_on_absent_job e jobId w :
  jobs w !! jobId = None ->
  fails e (SelectJob jobId) = None ->
  fails e (UpdateFailed jobId (lit "Job not found")) = None ->
  fst (executeJavaInDocker e jobId w) = Failure (lit "Job not found") /\
  jobs (snd (executeJavaInDocker e jobId w)) = jobs w /\
  map c_op (drop (length (trace w)) (trace (snd (executeJavaInDocker e jobId w))))
    = [SelectJob jobId; UpdateFailed jobId (lit "Job not found")].
Proof.
  intros Hrow Hsel Hupd.
  unfold executeJavaInDocker, tryBlock, selectJob, await, read, throw, mbind, M_bind.
  rewrite (perform_ok e (SelectJob jobId) w eq_refl Hsel).
  cbn [jobs sql_effect]. rewrite Hrow.
  rewrite perform_ok by done.
  cbn [fst snd container jobs trace sql_effect].
  split; [done|]. split.
  - apply map_eq. intros id. rewrite lookup_alter.
    destruct (decide (jobId = id)) as [<-|]; [by rewrite Hrow|done].
  - rewrite <- app_assoc. by rewrite drop_app_length.
Qed.

Lemma run_on_absent_job_witness :
  fst (executeJavaInDocker Scenario.hello "job-9" Scenario.fresh)
    = Failure (lit "Job not found") /\
  jobs (snd (executeJavaInDocker Scenario.hello "job-9" Scenario.fresh))
    = jobs Scenario.fresh /\
  map c_op (drop (length (trace Scenario.fresh))
                 (trace (snd (executeJavaInDocker Scenario.hello "job-9" Scenario.fresh))))
    = [SelectJob "job-9"; UpdateFailed "job-9" (lit "Job not found")].
Proof.
  apply (run_on_absent_job Scenario.hello "job-9" Scenario.fresh); reflexivity.
Defined.

(** The flags of a run that succeeds are one of three pairs: timeout when
    the deadline has fired, else success when the exit code is 0, else
    crash; [crashed] and [timed_out] are never both set. *)
Theorem outcome_flags e jobId w w' :
  executeJavaInDocker e jobId w = (Success, w') ->
  exists row,
    jobs w' !! jobId = Some row /\
    (Job.crashed row, Job.timed_out row) =
      (if fired (during_wait e) then (0, 1)
       else if StatusCode e =? 0 then (0, 0) else (1, 0)) /\
    ~ (Job.crashed row = 1 /\ Job.timed_out row = 1).
Proof.
  intros Hrun.
  destruct (run_success e jobId w w' Hrun)
    as (job & tbl & row1 & ? & ? & ? & ? & ? & ? & now & _ & Htbl & _ & -> & _).
  rewrite lookup_alter_eq, Htbl. eexists. split; [reflexivity|].
  cbn. unfold crashed_flag, timed_out_flag.
  destruct (fired (during_wait e)), (StatusCode e =? 0); cbn; split; try done;
    intros [? ?]; discriminate.
Qed.

Lemma outcome_flags_witness :
  exists row,
    jobs (snd (executeJavaInDocker Scenario.hello "job-1" Scenario.fresh)) !! "job-1"
      = Some row /\
    (Job.crashed row, Job.timed_out row) =
      (if fired (during_wait Scenario.hello) then (0, 1)
       else if StatusCode Scenario.hello =? 0 then (0, 0) else (1, 0)) /\
    ~ (Job.crashed row = 1 /\ Job.timed_out row = 1).
Proof.
  apply (outcome_flags Scenario.hello "job-1" Scenario.fresh).
  vm_compute. reflexivity.
Defined.


(** ** The archive and the command *)





(** ** The output stream handler, again *)

Remark toString_empty : toString [] = [].
Proof. reflexivity. Qed.

(** The handler only ever appends: what is in a buffer stays at its front.
    A chunk of eight bytes or fewer - a header alone, or less - appends
    nothing, and so does a chunk under a tag other than 1 and 2. *)
Theorem output_is_append_only chunks b :
  stdout b `prefix_of` stdout (demux chunks b) /\
  stderr b `prefix_of` stderr (demux chunks b) /\
  (forall chunk, (length chunk <= 8)%nat -> onData chunk b = b) /\
  (forall chunk t, head chunk = Some t -> Byte.to_N t <> 1%N -> Byte.to_N t <> 2%N ->
                   onData chunk b = b).
Proof.
  assert (forall chunk b0,
             stdout b0 `prefix_of` stdout (onData chunk b0) /\
             stderr b0 `prefix_of` stderr (onData chunk b0)) as Hone.
  { intros chunk b0. unfold onData.
    destruct (Byte.to_N <$> head (take 8 chunk)) as [[|[[]|[]|]]|]; cbn;
      split; try done; by apply prefix_app_r. }
  split; [|split; [|split]].
  - revert b. induction chunks as [|chunk chunks IH]; intros b; [done|].
    unfold demux in *. cbn [foldl]. etrans; [apply (Hone chunk b)|apply IH].
  - revert b. induction chunks as [|chunk chunks IH]; intros b; [done|].
    unfold demux in *. cbn [foldl]. etrans; [apply (Hone chunk b)|apply IH].
  - intros chunk Hlen. unfold onData. rewrite drop_ge by done.
    rewrite toString_empty, !app_nil_r.
    destruct b; by destruct (Byte.to_N <$> head (take 8 chunk)) as [[|[[]|[]|]]|].
  - intros chunk t Hhead H1 H2. unfold onData.
    destruct chunk as [|t' chunk]; [done|]. injection Hhead as ->. cbn [take head fmap option_fmap option_map].
    by destruct (Byte.to_N t) as [|[[]|[]|]].
Qed.


(** ** The statistics handler, again *)

(** The order of the numbers of JavaScript, on their IEEE 754 values. *)

Lemma SFltb_irrefl x : SFltb x x = false.
Proof.
  unfold SFltb, SFcompare. destruct x as [[]|[]| |[] m ex]; try done.
  - by rewrite Z.compare_refl, Pos.compare_cont_refl.
  - by rewrite Z.compare_refl, Pos.compare_cont_refl.
Qed.

Lemma SFltb_trans x y z : SFltb x y = true -> SFltb y z = true -> SFltb x z = true.
Proof.
  unfold SFltb, SFcompare.
  destruct x as [[]|[]| |[] mx ex], y as [[]|[]| |[] my ey], z as [[]|[]| |[] mz ez];
    try done.
  all: change (Pos.compare_cont Eq) with Pos.compare.
  all: destruct (Z.compare_spec ex ey), (Z.compare_spec ey ez), (Z.compare_spec ex ez);
    try done; try lia.
  all: destruct (Pos.compare_spec mx my), (Pos.compare_spec my mz),
         (Pos.compare_spec mx mz); cbn; try done; lia.
Qed.

Lemma SFltb_nan_l x : SFltb S754_nan x = false.
Proof. done. Qed.

Lemma SFltb_nan_r x : SFltb x S754_nan = false.
Proof. by destruct x. Qed.

(** [gt a b] is [a > b]. *)
Lemma gt_irrefl a : gt a a = false.
Proof. unfold gt. rewrite FloatAxioms.ltb_spec. apply SFltb_irrefl. Qed.

Lemma gt_trans a b c : gt a b = true -> gt b c = true -> gt a c = true.
Proof.
  unfold gt. rewrite !FloatAxioms.ltb_spec. intros H1 H2. by apply (SFltb_trans _ _ _ H2 H1).
Qed.

Lemma gt_not_nan a b : gt a b = true -> PrimFloat.is_nan a = false.
Proof.
  unfold gt, PrimFloat.is_nan. rewrite FloatAxioms.ltb_spec, FloatAxioms.eqb_spec.
  unfold SFltb, SFeqb. intros H.
  assert (Prim2SF a <> S754_nan) as Hne
    by (intros Heq; rewrite Heq in H; by destruct (Prim2SF b)).
  destruct (Prim2SF a) as [[]|[]| |[] m ex]; try done; cbn;
    by rewrite Z.compare_refl, Pos.compare_cont_refl.
Qed.

Lemma statsOnData_bump stats p :
  statsOnData (Some stats) p =
  Peaks (bump (maxCpuPercent p) (cpuPercent stats))
        (match memory_stats stats with
         | Some usage => bump (maxMemoryMb p) (usage / (1024 * 1024))%float
         | None => maxMemoryMb p
         end).
Proof.
  unfold statsOnData, statsBody, bump.
  destruct (memory_stats stats) as [usage|];
    destruct (gt (cpuPercent stats) (maxCpuPercent p)); cbn [maxCpuPercent maxMemoryMb];
    repeat match goal with |- context [if ?c then _ else _] => destruct c end;
    by destruct p.
Qed.

Lemma gt_asym a b : gt a b = true -> gt b a = false.
Proof.
  intros H. destruct (gt b a) eqn:H'; [|done].
  by rewrite <- (gt_irrefl a), (gt_trans a b a H H').
Qed.

(** A running maximum ends at its start or above it, no value of the
    sequence is above its end, and its end is the start or one of the
    values. *)
Lemma running_maximum values start :
  (foldl bump start values = start \/ gt (foldl bump start values) start = true) /\
  (forall v, v ∈ values -> gt v (foldl bump start values) = false) /\
  (foldl bump start values = start \/ foldl bump start values ∈ values) /\
  (PrimFloat.is_nan start = false -> PrimFloat.is_nan (foldl bump start values) = false).
Proof.
  revert start. induction values as [|v values IH]; intros start.
  - cbn. repeat split; auto. intros v Hv. by apply elem_of_nil in Hv.
  - cbn [foldl]. destruct (IH (bump start v)) as (Hup & Hdom & Hin & Hnan).
    remember (foldl bump (bump start v) values) as m eqn:Hm. clear Hm.
    assert (bump start v = start /\ gt v start = false
            \/ bump start v = v /\ gt v start = true) as Hstep
      by (unfold bump; destruct (gt v start); auto).
    repeat split.
    + destruct Hstep as [[Hb _] | [Hb Hgt]]; rewrite Hb in Hup; [done|]. right.
      destruct Hup as [-> | Hup]; [done|]. by apply (gt_trans _ v).
    + intros v' [-> | Hv']%elem_of_cons; [|by apply Hdom].
      destruct Hstep as [[Hb Hle] | [Hb Hgt]]; rewrite Hb in Hup.
      * destruct Hup as [-> | Hup]; [done|].
        destruct (gt v m) eqn:Hvm; [|done].
        by rewrite <- Hle, (gt_trans v m start Hvm Hup).
      * destruct Hup as [-> | Hup]; [apply gt_irrefl|by apply gt_asym].
    + destruct Hin as [-> | Hin]; [|right; by apply elem_of_cons; right].
      destruct Hstep as [[Hb _] | [Hb _]]; rewrite Hb;
        [by left|right; by apply elem_of_cons; left].
    + intros Hs. apply Hnan. unfold bump.
      destruct (gt v start) eqn:Hgt; [by apply (gt_not_nan v start)|done].
Qed.

Lemma sample_bumps frames p :
  sample frames p =
  Peaks (foldl bump (maxCpuPercent p) (cpu_samples frames))
        (foldl bump (maxMemoryMb p) (memory_samples frames)).
Proof.
  revert p. induction frames as [|[stats|] frames IH]; intros p.
  - by destruct p.
  - unfold sample in *. cbn [foldl]. rewrite IH, statsOnData_bump.
    cbn [cpu_samples memory_samples flat_map app foldl maxCpuPercent maxMemoryMb].
    by destruct (memory_stats stats).
  - unfold sample in *. cbn [foldl]. by rewrite IH.
Qed.

(** The peaks are running maxima of what the frames show.  The CPU peak
    ends at its start or above; no frame that could be read shows a
    percentage above it; and it is the start or the percentage of one of
    these frames.  The same holds of the memory peak and the frames that
    have a memory figure. *)
Theorem peaks_are_maxima frames p :
  (maxCpuPercent (sample frames p) = maxCpuPercent p
   \/ gt (maxCpuPercent (sample frames p)) (maxCpuPercent p) = true) /\
  (forall stats, Some stats ∈ frames ->
                 gt (cpuPercent stats) (maxCpuPercent (sample frames p)) = false) /\
  (maxCpuPercent (sample frames p) = maxCpuPercent p
   \/ exists stats, Some stats ∈ frames
                    /\ maxCpuPercent (sample frames p) = cpuPercent stats) /\
  (maxMemoryMb (sample frames p) = maxMemoryMb p
   \/ gt (maxMemoryMb (sample frames p)) (maxMemoryMb p) = true) /\
  (forall stats usage, Some stats ∈ frames -> memory_stats stats = Some usage ->
                       gt (usage / (1024 * 1024))%float (maxMemoryMb (sample frames p))
                       = false).
Proof.
  rewrite sample_bumps. cbn [maxCpuPercent maxMemoryMb].
  destruct (running_maximum (cpu_samples frames) (maxCpuPercent p)) as (Hc1 & Hc2 & Hc3 & _).
  destruct (running_maximum (memory_samples frames) (maxMemoryMb p)) as (Hm1 & Hm2 & _).
  repeat split; try done.
  - intros stats Hin. apply Hc2. unfold cpu_samples.
    apply list_elem_of_In, in_flat_map. exists (Some stats).
    split; [by apply list_elem_of_In|by left].
  - destruct Hc3 as [?|Hin]; [by left|right].
    apply list_elem_of_In, in_flat_map in Hin as [[stats|] [Hin Hv]]; [|done].
    exists stats. split; [by apply list_elem_of_In|]. by destruct Hv.
  - intros stats usage Hin Hmem. apply Hm2. unfold memory_samples.
    apply list_elem_of_In, in_flat_map. exists (Some stats).
    split; [by apply list_elem_of_In|]. rewrite Hmem. by left.
Qed.

(** The peaks a run stores are numbers, not [NaN], and are not negative. *)
Theorem stored_peaks_are_numbers e jobId w w' :
  executeJavaInDocker e jobId w = (Success, w') ->
  exists row cpu mem,
    jobs w' !! jobId = Some row /\
    Job.cpu_percent_max row = Some cpu /\ Job.memory_usage_mb row = Some mem /\
    PrimFloat.is_nan cpu = false /\ (cpu <? 0)%float = false /\
    PrimFloat.is_nan mem = false /\ (mem <? 0)%float = false.
Proof.
  intros Hrun.
  destruct (run_success e jobId w w' Hrun)
    as (job & tbl & row1 & ? & ? & ? & ? & ? & ? & now & _ & Htbl & _ & -> & _).
  rewrite lookup_alter_eq, Htbl. eexists _, _, _. split; [reflexivity|].
  cbn [Job.cpu_percent_max Job.memory_usage_mb Job.set_done].
  split; [reflexivity|]. split; [reflexivity|].
  unfold sampled. rewrite sample_bumps. cbn [maxCpuPercent maxMemoryMb].
  destruct (running_maximum (cpu_samples (frames_of (during_wait e))) 0%float)
    as (Hc1 & _ & _ & Hc4).
  destruct (running_maximum (memory_samples (frames_of (during_wait e))) 0%float)
    as (Hm1 & _ & _ & Hm4).
  repeat split.
  - by apply Hc4.
  - destruct Hc1 as [-> | Hc1]; [done|]. by apply gt_asym in Hc1.
  - by apply Hm4.
  - destruct Hm1 as [-> | Hm1]; [done|]. by apply gt_asym in Hm1.
Qed.

Lemma stored_peaks_are_numbers_witness :
  exists row cpu mem,
    jobs (snd (executeJavaInDocker Scenario.hello "job-1" Scenario.fresh)) !! "job-1"
      = Some row /\
    Job.cpu_percent_max row = Some cpu /\ Job.memory_usage_mb row = Some mem /\
    PrimFloat.is_nan cpu = false /\ (cpu <? 0)%float = false /\
    PrimFloat.is_nan mem = false /\ (mem <? 0)%float = false.
Proof.
  apply (stored_peaks_are_numbers Scenario.hello "job-1" Scenario.fresh).
  vm_compute. reflexivity.
Defined.

(** ** Reading jobs back: [GET /api/job/:jobId] *)

(** What the route answers with a body comes from a job of the asking key;
    the body carries a result exactly when the job is done. *)
Theorem job_view_of_its_owner err apiKey jobId w v :
  jobHandler err apiKey jobId w = Json v ->
  exists job,
    jobs w !! jobId = Some job /\ Job.api_key job = apiKey /\
    view_jobId v = jobId /\ view_status v = Job.status job /\
    view_createdAt v = Job.created_at job /\
    (is_Some (view_result v) <-> view_status v = done).
Proof.
  unfold jobHandler. destruct err; [done|].
  destruct (jobs w !! jobId) as [job|]; [|done].
  destruct (decide _) as [Hown|]; [|done]. intros [= <-]. cbn.
  exists job. repeat split; try done.
  - unfold result_of. destruct (Job.status job); by intros [? [=]].
  - unfold result_of. intros ->. by eexists.
Qed.

Lemma job_view_of_its_owner_witness :
  exists job,
    jobs Sample.three_jobs !! "job-3" = Some job /\ Job.api_key job = "key-a" /\
    view_jobId (JobView "job-3" not_started 300 None None None) = "job-3" /\
    view_status (JobView "job-3" not_started 300 None None None) = Job.status job /\
    view_createdAt (JobView "job-3" not_started 300 None None None) = Job.created_at job /\
    (is_Some (view_result (JobView "job-3" not_started 300 None None None))
     <-> view_status (JobView "job-3" not_started 300 None None None) = done).
Proof.
  apply (job_view_of_its_owner None "key-a" "job-3" Sample.three_jobs).
  vm_compute. reflexivity.
Defined.

(** A job of another key is answered exactly as a job that does not exist:
    the answer does not tell the two apart. *)
Theorem foreign_job_is_hidden err apiKey jobId w job :
  jobs w !! jobId = Some job -> Job.api_key job <> apiKey ->
  jobHandler err apiKey jobId w
  = jobHandler err apiKey jobId
      (World (delete jobId (jobs w)) (api_keys w) (clock w) (trace w)).
Proof.
  intros Hjob Hkey. unfold jobHandler. cbn [jobs].
  rewrite Hjob, lookup_delete_eq. by rewrite decide_False.
Qed.

Lemma foreign_job_is_hidden_witness :
  jobHandler None "key-a" "job-2" Sample.three_jobs
  = jobHandler None "key-a" "job-2"
      (World (delete "job-2" (jobs Sample.three_jobs)) (api_keys Sample.three_jobs)
             (clock Sample.three_jobs) (trace Sample.three_jobs)).
Proof.
  apply (foreign_job_is_hidden None "key-a" "job-2" Sample.three_jobs
           (Job.inserted "key-b" Scenario.source [] [] 200)).
  - vm_compute. reflexivity.
  - discriminate.
Defined.



(** ** Listing jobs: [GET /api/jobs] *)

#[local] Instance newer_trans : Transitive newer.
Proof. unfold newer. intros a b c. lia. Qed.

#[local] Instance newer_total : Total newer.
Proof. unfold newer. intros a b. lia. Qed.

Lemma owned_rows_elem apiKey tbl row :
  row ∈ owned_rows apiKey tbl <-> tbl !! row.1 = Some row.2 /\ Job.api_key row.2 = apiKey.
Proof.
  unfold owned_rows. rewrite merge_sort_Permutation, list_elem_of_filter.
  destruct row as [id job]. rewrite elem_of_map_to_list. cbn. tauto.
Qed.

Lemma owned_rows_NoDup apiKey tbl : NoDup (owned_rows apiKey tbl).*1.
Proof.
  unfold owned_rows. rewrite merge_sort_Permutation.
  eapply sublist_NoDup; [apply (NoDup_fst_map_to_list tbl)|].
  apply fmap_sublist, sublist_filter.
Qed.

Lemma owned_rows_sorted apiKey tbl : StronglySorted newer (owned_rows apiKey tbl).
Proof. apply (StronglySorted_merge_sort newer). Qed.

Lemma limit_offset_sublist {A} limit offset (rows : list A) :
  limit_offset limit offset rows `sublist_of` rows.
Proof.
  unfold limit_offset. destruct (limit <? 0).
  - apply sublist_drop.
  - etrans; [apply sublist_take | apply sublist_drop].
Qed.

Lemma StronglySorted_sublist {A} (R : relation A) (l k : list A) :
  l `sublist_of` k -> StronglySorted R k -> StronglySorted R l.
Proof.
  induction 1 as [|x l k Hsub IH|x l k Hsub IH]; intros Hk.
  - constructor.
  - apply StronglySorted_inv in Hk as [Hk Hx]. constructor; [auto|].
    eapply Forall_forall. intros y Hy. eapply Forall_forall in Hx; [done|].
    by eapply elem_of_sublist.
  - apply StronglySorted_inv in Hk as [Hk _]. auto.
Qed.

(** A page of the listing holds only jobs of the asking key, as they are in
    the table, no job twice, the newest first, and no more of them than the limit, when
    the limit - [parseInt(req.query.limit) || 100] - is not negative. *)
Theorem listing_page apiKey limit offset w rows :
  jobsHandler None apiKey limit offset w = Json rows ->
  (forall row, row ∈ rows ->
     exists job, jobs w !! sum_id row = Some job /\ Job.api_key job = apiKey /\
                 row = summary (sum_id row, job)) /\
  NoDup (sum_id <$> rows) /\
  StronglySorted (fun a b => sum_created_at b <= sum_created_at a) rows /\
  (0 <= or_default limit 100 -> Z.of_nat (length rows) <= or_default limit 100).
Proof.
  unfold jobsHandler. intros [= <-].
  set (page := limit_offset _ _ _).
  assert (page `sublist_of` owned_rows apiKey (jobs w)) as Hsub
    by apply limit_offset_sublist.
  split; [|split; [|split]].
  - intros row [[id job] [-> Hin]]%list_elem_of_fmap.
    eapply elem_of_sublist in Hin; [|exact Hsub].
    apply owned_rows_elem in Hin as [Hjob Hown]. by exists job.
  - rewrite <- list_fmap_compose.
    eapply sublist_NoDup; [apply (owned_rows_NoDup apiKey (jobs w))|].
    by apply fmap_sublist.
  - apply (StronglySorted_fmap summary newer); [by intros [??] [??]|].
    eapply StronglySorted_sublist; [exact Hsub | apply owned_rows_sorted].
  - intros Hlimit. rewrite length_fmap. unfold page, limit_offset.
    destruct (Z.ltb_spec (or_default limit 100) 0); [lia|].
    rewrite length_take. lia.
Qed.

Lemma listing_page_witness :
  (forall row,
     row ∈ [Summary "job-3" not_started 300 None None 0 0 None;
            Summary "job-1" not_started 100 None None 0 0 None] ->
     exists job, jobs Sample.three_jobs !! sum_id row = Some job /\
                 Job.api_key job = "key-a" /\ row = summary (sum_id row, job)) /\
  NoDup (sum_id <$> [Summary "job-3" not_started 300 None None 0 0 None;
                     Summary "job-1" not_started 100 None None 0 0 None]) /\
  StronglySorted (fun a b => sum_created_at b <= sum_created_at a)
    [Summary "job-3" not_started 300 None None 0 0 None;
     Summary "job-1" not_started 100 None None 0 0 None] /\
  (0 <= or_default None 100 ->
   Z.of_nat (length [Summary "job-3" not_started 300 None None 0 0 None;
                     Summary "job-1" not_started 100 None None 0 0 None])
   <= or_default None 100).
Proof.
  apply (listing_page "key-a" None None Sample.three_jobs).
  vm_compute. reflexivity.
Defined.






(** ** The start of the server *)

(** After [initDatabase] the default key [test-api-key-123] passes the
    middleware, whatever the tables held before; the jobs and the keys
    that were there are kept, and a second start changes nothing. *)
Theorem default_key_after_start e w :
  fails e (SelectKey "test-api-key-123") = None ->
  fst (authenticateApiKey e (with_key (Some "test-api-key-123")) (initDatabase None w))
    = inr "test-api-key-123" /\
  jobs (initDatabase None w) = jobs w /\
  api_keys w ⊆ api_keys (initDatabase None w) /\
  initDatabase None (initDatabase None w) = initDatabase None w.
Proof.
  intros Hsel. split; [|split; [|split]].
  - rewrite (authenticated e _ (initDatabase None w) "test-api-key-123"); try done.
    cbn. by apply elem_of_union_l, elem_of_singleton.
  - done.
  - cbn. apply union_subseteq_r.
  - unfold initDatabase. cbn. f_equal.
    apply set_eq. intros key. rewrite !elem_of_union. tauto.
Qed.

Lemma default_key_after_start_witness :
  fst (authenticateApiKey Scenario.hello (with_key (Some "test-api-key-123"))
         (initDatabase None (World ∅ ∅ 0 [])))
    = inr "test-api-key-123" /\
  jobs (initDatabase None (World ∅ ∅ 0 [])) = jobs (World ∅ ∅ 0 []) /\
  api_keys (World ∅ ∅ 0 []) ⊆ api_keys (initDatabase None (World ∅ ∅ 0 [])) /\
  initDatabase None (initDatabase None (World ∅ ∅ 0 [])) = initDatabase None (World ∅ ∅ 0 []).
Proof.
  apply (default_key_after_start Scenario.hello (World ∅ ∅ 0 [])).
  reflexivity.
Defined.

(** ** The sweep: [cleanupOrphanedContainers] *)

Lemma removeForced_foldl s ids d id :
  foldl (removeForced s) d ids !! id
  = if decide (id ∈ ids /\ remove_fails s id = None) then None else d !! id.
Proof.
  revert d. induction ids as [|x ids IH]; intros d; cbn [foldl].
  - rewrite decide_False; [done|]. intros [[]%elem_of_nil _].
  - rewrite IH. unfold removeForced.
    destruct (decide (id ∈ ids /\ remove_fails s id = None)) as [[Hin Hok]|Hno].
    + rewrite decide_True; [done|]. split; [by right|done].
    + destruct (decide (x = id)) as [->|Hne].
      * destruct (remove_fails s id) eqn:Hrm.
        -- rewrite decide_False; [done|]. by intros [_ [=]].
        -- rewrite lookup_delete_eq, decide_True; [done|]. split; [by left|done].
      * rewrite decide_False.
        -- destruct (remove_fails s x); [done|]. by rewrite lookup_delete_ne.
        -- intros [[->|Hin]%elem_of_cons Hok]; [done|]. by apply Hno.
Qed.

Lemma cleanup_lookup s d id :
  list_fails s = None ->
  cleanupOrphanedContainers s d !! id
  = match d !! id with
    | Some labels =>
        if decide (labels !! "project" = Some PROJECT_LABEL)
        then match remove_fails s id with Some _ => Some labels | None => None end
        else Some labels
    | None => None
    end.
Proof.
  intros Hlist. unfold cleanupOrphanedContainers. rewrite Hlist, removeForced_foldl.
  destruct (d !! id) as [labels|] eqn:Hid.
  - destruct (decide (labels !! "project" = Some PROJECT_LABEL)) as [Hlab|Hlab].
    + destruct (remove_fails s id) eqn:Hrm.
      * rewrite decide_False; [done|]. by intros [_ [=]].
      * rewrite decide_True; [done|]. split; [|done].
        apply list_elem_of_fmap. exists (id, labels). split; [done|].
        apply elem_of_map_to_list, map_lookup_filter_Some. by split.
    + rewrite decide_False; [done|].
      intros [[[id' labels'] [-> Hin]]%list_elem_of_fmap _].
      apply elem_of_map_to_list, map_lookup_filter_Some in Hin as [Hin Hor].
      cbn in *. rewrite Hid in Hin. injection Hin as <-. by apply Hlab.
  - by destruct (decide _).
Qed.

(** The sweep never touches a container that does not carry the label
    [project=java-executor-service], and it adds none: whatever Docker
    answers, such a container is there afterwards and every container
    there afterwards was there before, with its labels. *)
Theorem sweep_keeps_other_containers s d id labels :
  d !! id = Some labels -> labels !! "project" <> Some PROJECT_LABEL ->
  cleanupOrphanedContainers s d !! id = Some labels /\
  cleanupOrphanedContainers s d ⊆ d.
Proof.
  intros Hid Hlab. split.
  - destruct (list_fails s) as [message|] eqn:Hlist.
    + unfold cleanupOrphanedContainers. by rewrite Hlist.
    + rewrite (cleanup_lookup s d id Hlist), Hid. by rewrite decide_False.
  - destruct (list_fails s) as [message|] eqn:Hlist.
    + unfold cleanupOrphanedContainers. by rewrite Hlist.
    + apply map_subseteq_spec. intros id' labels'.
      rewrite (cleanup_lookup s d id' Hlist).
      destruct (d !! id') as [l|]; [|done].
      destruct (decide _); [|done]. by destruct (remove_fails s id').
Qed.

Lemma sweep_keeps_other_containers_witness :
  cleanupOrphanedContainers Sample.calm Sample.two_containers !! "beef"
    = Some {[ "project" := "other" ]} /\
  cleanupOrphanedContainers Sample.calm Sample.two_containers ⊆ Sample.two_containers.
Proof.
  apply (sweep_keeps_other_containers Sample.calm Sample.two_containers "beef"
           {[ "project" := "other" ]}).
  - vm_compute. reflexivity.
  - vm_compute. discriminate.
Defined.

(** The container of a run carries the labels the sweep looks for: when
    [listContainers] is fulfilled, each such container whose removal is
    fulfilled is gone after the sweep, and a removal that is rejected
    leaves its own container and stops nothing else. *)
Theorem sweep_removes_job_containers s d id jobId :
  list_fails s = None ->
  d !! id = Some (Labels jobId) ->
  cleanupOrphanedContainers s d !! id
  = match remove_fails s id with
    | Some _ => Some (Labels jobId)
    | None => None
    end.
Proof.
  intros Hlist Hid. rewrite (cleanup_lookup s d id Hlist), Hid.
  rewrite decide_True; [done|].
  unfold Labels. rewrite lookup_insert_eq. done.
Qed.

Lemma sweep_removes_job_containers_witness :
  cleanupOrphanedContainers Sample.calm Sample.two_containers !! "c0ffee"
  = match remove_fails Sample.calm "c0ffee" with
    | Some _ => Some (Labels "job-1")
    | None => None
    end.
Proof.
  apply (sweep_removes_job_containers Sample.calm Sample.two_containers "c0ffee" "job-1").
  - reflexivity.
  - vm_compute. reflexivity.
Defined.

(** A sweep after a sweep that met no error finds nothing to do: every
    labelled container is gone, and none is left for a second pass. *)
Theorem sweep_twice s d :
  list_fails s = None -> (forall id, remove_fails s id = None) ->
  filter orphan (cleanupOrphanedContainers s d) = ∅ /\
  forall s', cleanupOrphanedContainers s' (cleanupOrphanedContainers s d)
             = cleanupOrphanedContainers s d.
Proof.
  intros Hlist Hrm.
  assert (filter orphan (cleanupOrphanedContainers s d) = ∅) as Hempty.
  { apply map_empty. intros id. apply eq_None_not_Some. intros [labels Hin].
    apply map_lookup_filter_Some in Hin as [Hin Hor]. cbn in Hor.
    rewrite (cleanup_lookup s d id Hlist) in Hin.
    destruct (d !! id) as [l|]; [|done].
    destruct (decide _) as [|Hno]; [by rewrite Hrm in Hin|].
    injection Hin as ->. by apply Hno. }
  split; [done|]. intros s'. unfold cleanupOrphanedContainers at 1.
  destruct (list_fails s'); [done|]. by rewrite Hempty, map_to_list_empty.
Qed.

Lemma sweep_twice_witness :
  filter orphan (cleanupOrphanedContainers Sample.calm Sample.two_containers) = ∅ /\
  forall s', cleanupOrphanedContainers s'
               (cleanupOrphanedContainers Sample.calm Sample.two_containers)
             = cleanupOrphanedContainers Sample.calm Sample.two_containers.
Proof.
  apply (sweep_twice Sample.calm Sample.two_containers).
  - reflexivity.
  - reflexivity.
Defined.
